(** * BizTrack AI service: categorisation, forecasting and insights

    A shallow embedding of [ai_service/main.py] and
    [ai_service/forecaster.py], and the properties of the three request
    handlers proved over it.

    Conventions of the embedding.
    - A Python [float] and a NumPy [float64] on which the code does
      arithmetic (the amounts, the forecast values, the trend) are
      binary64 numbers, the kernel's [float]: every operation rounds to
      nearest, ties to even, and infinities, NaN and the two zeros are
      values.  A division whose divisor is zero is written out where the
      source has one: Python's own [float] raises [ZeroDivisionError], a
      NumPy scalar yields an infinity or NaN.
    - The sums of [pandas] and of [sum] add their values from left to
      right, one rounded addition per value.
    - The probabilities of the classifier, which the code compares and
      passes on without arithmetic, are rationals ([Q]).
    - A Python [str] is a [string] of code points below 256.
    - A Python [int] is a [Z].
    - A handler that may raise returns a [result]; [try]/[except] is a
      match on it.
    - The Prophet model, the trained classifier and [pandas.to_datetime]
      are collaborators outside the repository: they are the fields of
      interfaces, and every theorem holds for all their implementations. *)

From Stdlib Require Import ZArith QArith Qround List String Ascii Bool Lia.
From Stdlib Require Import DecimalString Sorted.
From Stdlib Require Import PrimFloat FloatOps SpecFloat.
Import ListNotations.

Set Warnings "-inexact-float".

Local Open Scope Z_scope.

(** ** Exceptions and results *)

Inductive exn : Type :=
| AttributeError (msg : string)
| ZeroDivisionError (msg : string)
| IndexError (msg : string)
| OverflowError (msg : string)
| ValueError (msg : string)
| OtherException (msg : string).

(** [str(e)] *)
Definition str_of_exn (e : exn) : string :=
  match e with
  | AttributeError m | ZeroDivisionError m | IndexError m
  | OverflowError m | ValueError m | OtherException m => m
  end.

Inductive result (A : Type) : Type :=
| Ok (a : A)
| Raise (e : exn).
Arguments Ok {A} a.
Arguments Raise {A} e.

Definition bind {A B : Type} (r : result A) (k : A -> result B) : result B :=
  match r with
  | Ok a => k a
  | Raise e => Raise e
  end.

Notation "x <- r ;; k" := (bind r (fun x => k))
  (at level 61, r at next level, right associativity).

(** A [for] loop that appends one element per iteration, and stops at the
    first iteration that raises. *)
Fixpoint for_each {A B : Type} (f : A -> result B) (l : list A) : result (list B) :=
  match l with
  | [] => Ok []
  | a :: l' => b <- f a ;; bs <- for_each f l' ;; Ok (b :: bs)
  end.

Definition is_ok {A : Type} (r : result A) : bool :=
  match r with Ok _ => true | Raise _ => false end.

(** ** Strings *)

(** [str.lower] on one code point below 256: the letters A-Z, and the
    Latin-1 capitals U+00C0..U+00DE without the multiplication sign. *)
Definition lower_char (c : ascii) : ascii :=
  let n := nat_of_ascii c in
  if (((65 <=? n) && (n <=? 90)) ||
      ((192 <=? n) && (n <=? 222) && negb (n =? 215)))%nat
  then ascii_of_nat (n + 32)
  else c.

Fixpoint lower (s : string) : string :=
  match s with
  | EmptyString => EmptyString
  | String c s' => String (lower_char c) (lower s')
  end.

Fixpoint starts_with (w s : string) : bool :=
  match w, s with
  | EmptyString, _ => true
  | String _ _, EmptyString => false
  | String a w', String b s' => Ascii.eqb a b && starts_with w' s'
  end.

(** [w in s] on strings *)
Fixpoint contains (w s : string) : bool :=
  match s with
  | EmptyString => starts_with w EmptyString
  | String _ s' => starts_with w s || contains w s'
  end.

(** [any(w in desc for w in ws)] *)
Definition any_in (ws : list string) (desc : string) : bool :=
  existsb (fun w => contains w desc) ws.

(** ** Request and response models of [main.py] *)

Record Transaction : Type := {
  description : option string;
  amount : float;
  date : string;
  vendor : option string
}.

Record CategoryPrediction : Type := {
  cp_description : option string;
  suggested_category : string;
  confidence : Q
}.

(** The trained classifier of [categorizer.joblib], when one was loaded. *)
Record Classifier : Type := {
  clf_predict : list (option string) -> result (list string);
  clf_predict_proba : list (option string) -> result (list (list Q))
}.

(** ** [predict_category] *)

Module Categorizer.

Local Open Scope string_scope.

(** The [if]/[elif] chain of the heuristic branch, on the lowered
    description. *)
Definition heuristic_category (desc : string) : string :=
  if any_in ["rent"; "lease"; "office"] desc then "rent"
  else if any_in ["salary"; "wage"; "pay"; "staff"] desc then "salaries"
  else if any_in ["stock"; "inventory"; "buy"; "purchase"] desc then "stock"
  else if any_in ["uber"; "fuel"; "transport"; "taxi"] desc then "transport"
  else if any_in ["electric"; "water"; "bill"; "power"] desc then "utilities"
  else if any_in ["ad"; "marketing"; "facebook"; "google"; "promo"] desc
       then "marketing"
  else "other".

(** One iteration of the heuristic loop: [tx.description.lower()] is a
    method call on the optional description. *)
Definition heuristic_step (tx : Transaction) : result CategoryPrediction :=
  match description tx with
  | None => Raise (AttributeError "'NoneType' object has no attribute 'lower'")
  | Some d =>
      Ok {| cp_description := description tx;
            suggested_category := heuristic_category (lower d);
            confidence := 4 # 10 |}
  end.

(** [float(p.max())] of one row of probabilities; the maximum of an empty
    row raises. *)
Definition row_max (p : list Q) : result Q :=
  match p with
  | [] => Raise (ValueError "zero-size array to reduction operation maximum which has no identity")
  | x :: xs => Ok (fold_left (fun m y => if Qle_bool m y then y else m) xs x)
  end.

(** [try: ... except: confidences = [0.8] * len(predictions)] *)
Definition confidences_of (m : Classifier) (descriptions : list (option string))
    (n_predictions : nat) : list Q :=
  match (probs <- clf_predict_proba m descriptions ;; for_each row_max probs) with
  | Ok cs => cs
  | Raise _ => repeat (8 # 10) n_predictions
  end.

Definition index {A : Type} (l : list A) (i : nat) : result A :=
  match nth_error l i with
  | Some a => Ok a
  | None => Raise (IndexError "index out of range")
  end.

Fixpoint model_loop (predictions : list string) (confidences : list Q)
    (i : nat) (txs : list Transaction) : result (list CategoryPrediction) :=
  match txs with
  | [] => Ok []
  | tx :: txs' =>
      p <- index predictions i ;;
      c <- index confidences i ;;
      rest <- model_loop predictions confidences (S i) txs' ;;
      Ok ({| cp_description := description tx;
             suggested_category := p;
             confidence := c |} :: rest)
  end.

(** The handler; [categorizer_model] is the module's global, [None] when
    no artifact was loaded.  The value returned is the list under the
    response's key [predictions]. *)
Definition predict_category (categorizer_model : option Classifier)
    (transactions : list Transaction) : result (list CategoryPrediction) :=
  match categorizer_model with
  | None => for_each heuristic_step transactions
  | Some m =>
      let descriptions := map description transactions in
      predictions <- clf_predict m descriptions ;;
      let confidences := confidences_of m descriptions (List.length predictions) in
      model_loop predictions confidences 0%nat transactions
  end.

(** The rule table as the specification words it: an ordered list of
    categories with their keywords. *)
Definition keyword_rules : list (string * list string) :=
  [ ("rent", ["rent"; "lease"; "office"]);
    ("salaries", ["salary"; "wage"; "pay"; "staff"]);
    ("stock", ["stock"; "inventory"; "buy"; "purchase"]);
    ("transport", ["uber"; "fuel"; "transport"; "taxi"]);
    ("utilities", ["electric"; "water"; "bill"; "power"]);
    ("marketing", ["ad"; "marketing"; "facebook"; "google"; "promo"]) ].

(** The first rule one of whose keywords occurs in the text wins. *)
Definition first_matching_rule (rules : list (string * list string))
    (text : string) : string :=
  match find (fun r => any_in (snd r) text) rules with
  | Some r => fst r
  | None => "other"
  end.

(** The result the specification gives for one transaction. *)
Definition heuristic_prediction (tx : Transaction) : CategoryPrediction :=
  {| cp_description := description tx;
     suggested_category :=
       first_matching_rule keyword_rules
         (lower (match description tx with Some d => d | None => "" end));
     confidence := 4 # 10 |}.

(** Every keyword of the table, and every label the heuristic can give *)
Definition all_keywords : list string := flat_map snd keyword_rules.

Definition heuristic_labels : list string :=
  map fst keyword_rules ++ ["other"].

(** The result of the model-backed loop for one transaction *)
Definition model_prediction (tx : Transaction) (p : string) (c : Q)
  : CategoryPrediction :=
  {| cp_description := description tx; suggested_category := p; confidence := c |}.

End Categorizer.

(** ** Numbers *)

Module Numeric.

(** The integer nearest to a rational, a tie going to the even neighbour
    (the rule of [format] for the last digit it keeps). *)
Definition nearest_even (q : Q) : Z :=
  let f := Qfloor q in
  match (q - inject_Z f ?= 1 # 2)%Q with
  | Lt => f
  | Gt => f + 1
  | Eq => if Z.even f then f else f + 1
  end.

Definition two52 : float := 4503599627370496.

(** [numpy.rint]: the nearest integral value, a tie going to the even
    neighbour, with the sign of the argument.  A value of magnitude
    2^52 or more is integral already; below it, adding and taking away
    2^52 rounds the fraction off.  Infinities and NaN are passed on. *)
Definition rint (x : float) : float :=
  if (abs x <? two52)%float
  then let r := ((abs x + two52) - two52)%float in
       if get_sign x then (- r)%float else r
  else x.

(** [round(x, 2)] on a NumPy scalar: [rint(x * 100) / 100] *)
Definition round2 (x : float) : float := (rint (x * 100) / 100)%float.

Definition string_of_nonneg (z : Z) : string :=
  NilZero.string_of_uint (N.to_uint (Z.to_N z)).

(** The exact value of the finite number with mantissa [m] and exponent [e] *)
Definition magnitude (m : positive) (e : Z) : Q :=
  (inject_Z (Z.pos m) * Qpower 2 e)%Q.

(** [format(x, '.1f')]: the sign of [x], and the decimal with one digit
    after the point that is nearest to the exact value of [x]. *)
Definition format_1f (x : float) : string :=
  match Prim2SF x with
  | S754_nan => "nan"
  | S754_infinity s => if s then "-inf" else "inf"
  | S754_zero s => if s then "-0.0" else "0.0"
  | S754_finite s m e =>
      let n := nearest_even (magnitude m e * 10) in
      ((if s then "-" else "") ++
       string_of_nonneg (n / 10) ++ "." ++ string_of_nonneg (n mod 10))%string
  end.

(** [sum(values)], which starts from the integer 0 *)
Definition sum (vs : list float) : float := fold_left PrimFloat.add vs 0%float.

End Numeric.

(** ** [predict_insights] *)

Module Insights.

Import Numeric.
Local Open Scope string_scope.

Record Insight : Type := {
  i_type : string;
  i_category : option string;
  i_severity : option string;
  i_message : string;
  i_action : string
}.

(** The response: [{"insights": ...}], with the key [error] on the
    failure path. *)
Record InsightResponse : Type := {
  ir_error : option string;
  ir_insights : list Insight
}.

(** One value added to the running sum of its group: a NaN counts as a
    missing value and is skipped. *)
Definition group_add (acc v : float) : float :=
  if is_nan v then acc else (acc + v)%float.

(** One row added to the groups of [groupby('description')]: the groups
    are kept sorted by key, as [groupby] sorts them, and the sum of a
    group starts from zero. *)
Fixpoint add_to_group (k : string) (v : float) (groups : list (string * float))
  : list (string * float) :=
  match groups with
  | [] => [(k, group_add 0 v)]
  | (k', v') :: rest =>
      match String.compare k k' with
      | Eq => (k', group_add v' v) :: rest
      | Lt => (k, group_add 0 v) :: groups
      | Gt => (k', v') :: add_to_group k v rest
      end
  end.

(** [df.groupby('description')['amount'].sum().to_dict()]: rows whose key
    is missing are dropped. *)
Definition groupby_description_sum (rows : list Transaction) : list (string * float) :=
  fold_left
    (fun groups tx =>
       match description tx with
       | None => groups
       | Some d => add_to_group d (amount tx) groups
       end)
    rows [].

(** [amt / total] on Python floats *)
Definition float_div (x y : float) : result float :=
  if (y =? 0)%float then Raise (ZeroDivisionError "float division by zero")
  else Ok (x / y)%float.

Definition anomaly (cat : string) (pct : float) : Insight :=
  {| i_type := "anomaly";
     i_category := Some cat;
     i_severity := Some "medium";
     i_message := "Spending in " ++ cat ++ " is unusually high ("
                  ++ format_1f pct ++ "% of total).";
     i_action := "Review individual receipts for potential overspending." |}.

Definition info : Insight :=
  {| i_type := "info";
     i_category := None;
     i_severity := None;
     i_message := "Your spending patterns are healthy and stable.";
     i_action := "Maintain your current budget oversight." |}.

(** The loop over [category_spending.items()] *)
Fixpoint anomalies (total : float) (items : list (string * float))
  : result (list Insight) :=
  match items with
  | [] => Ok []
  | (cat, amt) :: rest =>
      if (total * 0.3 <? amt)%float
      then ratio <- float_div amt total ;;
           more <- anomalies total rest ;;
           Ok (anomaly cat (ratio * 100)%float :: more)
      else anomalies total rest
  end.

(** The body of the [try] block, after the test of [df.empty] *)
Definition detect (expense_history : list Transaction) : result (list Insight) :=
  let category_spending := groupby_description_sum expense_history in
  let total := sum (map snd category_spending) in
  insights <- anomalies total category_spending ;;
  Ok (match insights with
      | [] => [info]
      | _ :: _ => insights
      end).

Definition predict_insights (expense_history : list Transaction) : InsightResponse :=
  match expense_history with
  | [] => {| ir_error := None; ir_insights := [] |}
  | _ :: _ =>
      match detect expense_history with
      | Ok insights => {| ir_error := None; ir_insights := insights |}
      | Raise e => {| ir_error := Some (str_of_exn e); ir_insights := [] |}
      end
  end.

(** The test of the loop, [amt > total * 0.3], on one item of the
    spending map *)
Definition exceeds (total : float) (item : string * float) : bool :=
  (total * 0.3 <? snd item)%float.


(** The anomaly reported for one item of the spending map *)
Definition anomaly_of (total : float) (item : string * float) : Insight :=
  anomaly (fst item) (snd item / total * 100)%float.




(** One row taken into the groups *)
Definition group_row (groups : list (string * float)) (tx : Transaction)
  : list (string * float) :=
  match description tx with
  | None => groups
  | Some d => add_to_group d (amount tx) groups
  end.

End Insights.

(** ** Dates *)

Module Dates.

Local Open Scope Z_scope.

(** A [pandas.Timestamp] is a number of nanoseconds since the epoch;
    [Timedelta.days] is the number of whole days of a difference. *)
Definition ns_per_day : Z := 86400000000000.

Definition timedelta_days (ns : Z) : Z := ns / ns_per_day.

(** A [datetime.datetime]: the proleptic Gregorian ordinal of its day
    (day 1 is 0001-01-01) and the microsecond within the day. *)
Record datetime : Type := {
  ordinal : Z;
  microsecond_of_day : Z
}.

(** [datetime.max] is 9999-12-31. *)
Definition MAXORDINAL : Z := 3652059.

(** [d + timedelta(days=i)] *)
Definition add_days (d : datetime) (i : Z) : result datetime :=
  if 999999999 <? Z.abs i
  then Raise (OverflowError "days must have magnitude <= 999999999")
  else
    let o := ordinal d + i in
    if (1 <=? o) && (o <=? MAXORDINAL)
    then Ok {| ordinal := o; microsecond_of_day := microsecond_of_day d |}
    else Raise (OverflowError "date value out of range").

(** Year, month and day of an ordinal (the civil calendar, by eras of
    400 years that start on 1 March). *)
Definition ymd_of_ordinal (o : Z) : Z * Z * Z :=
  let z := o + 305 in
  let era := z / 146097 in
  let doe := z - era * 146097 in
  let yoe := (doe - doe / 1460 + doe / 36524 - doe / 146096) / 365 in
  let doy := doe - (365 * yoe + yoe / 4 - yoe / 100) in
  let mp := (5 * doy + 2) / 153 in
  let d := doy - (153 * mp + 2) / 5 + 1 in
  let m := if mp <? 10 then mp + 3 else mp - 9 in
  let y := yoe + era * 400 + (if m <=? 2 then 1 else 0) in
  (y, m, d).

Definition two_digits (n : Z) : string :=
  let pad := if n <? 10 then "0"%string else ""%string in
  (pad ++ Numeric.string_of_nonneg n)%string.

(** [d.strftime('%Y-%m-%d')]; a year below 1000 is not padded. *)
Definition strftime_Ymd (d : datetime) : string :=
  let '(y, m, dd) := ymd_of_ordinal (ordinal d) in
  (Numeric.string_of_nonneg y ++ "-" ++ two_digits m ++ "-" ++ two_digits dd)%string.

(** [range(1, days + 1)] *)
Definition range_1_to (days : Z) : list Z :=
  map Z.of_nat (seq 1 (Z.to_nat days)).

End Dates.

(** ** [forecaster.py] *)

Module Forecaster.

Import Numeric Dates.
Local Open Scope Z_scope.

(** One row of the frame [historical_data]: the request's transaction
    with [date] parsed and renamed [ds], and [amount] renamed [y]. *)
Record HistoryRow : Type := {
  h_description : option string;
  y : float;
  ds : Z;
  h_vendor : option string
}.

(** The keyword arguments of [Prophet(...)] *)
Record ProphetConfig : Type := {
  daily_seasonality : bool;
  weekly_seasonality : bool;
  yearly_seasonality : bool
}.

(** The columns of Prophet's output that the forecaster reads *)
Record ForecastRow : Type := {
  f_ds : Z;
  yhat : float;
  yhat_lower : float;
  yhat_upper : float
}.

(** The key [ds] of a prediction is a timestamp on the model's path and a
    formatted date on the fallback's. *)
Inductive ds_value : Type :=
| Timestamp (ns : Z)
| DateString (s : string).

Record Prediction : Type := {
  p_ds : ds_value;
  p_yhat : float;
  p_yhat_lower : float;
  p_yhat_upper : float
}.

Record ForecastResult : Type := {
  predictions : list Prediction;
  trend_percentage : float;
  seasonality_mode : string
}.

(** Prophet, by the three calls the forecaster makes. *)
Class ProphetAPI : Type := {
  Model : Type;
  Future : Type;
  fit : ProphetConfig -> list HistoryRow -> result Model;
  make_future_dataframe : Model -> Z -> result Future;
  predict : Model -> Future -> result (list ForecastRow)
}.

(** [(historical_data['ds'].max() - historical_data['ds'].min()).days];
    on a frame without rows both extremes are missing and the comparison
    that follows is false, as it is for 0. *)
Definition data_span_days (historical_data : list HistoryRow) : Z :=
  match map ds historical_data with
  | [] => 0
  | d :: rest =>
      timedelta_days (fold_left Z.max rest d - fold_left Z.min rest d)
  end.

(** [series.iloc[i]] *)
Definition iloc {A : Type} (l : list A) (i : Z) : result A :=
  let n := Z.of_nat (List.length l) in
  let j := if i <? 0 then i + n else i in
  if (0 <=? j) && (j <? n)
  then match nth_error l (Z.to_nat j) with
       | Some a => Ok a
       | None => Raise (IndexError "single positional indexer is out-of-bounds")
       end
  else Raise (IndexError "single positional indexer is out-of-bounds").

(** [frame.tail(n)] *)
Definition tail {A : Type} (n : Z) (l : list A) : list A :=
  if n =? 0 then []
  else if 0 <? n then skipn (List.length l - Z.to_nat n) l
  else skipn (Z.to_nat (- n)) l.

(** [tail[['ds', 'yhat', 'yhat_lower', 'yhat_upper']].to_dict('records')] *)
Definition to_record (r : ForecastRow) : Prediction :=
  {| p_ds := Timestamp (f_ds r);
     p_yhat := yhat r;
     p_yhat_lower := yhat_lower r;
     p_yhat_upper := yhat_upper r |}.

(** The model built by [Prophet(...)] for a history *)
Definition prophet_config (historical_data : list HistoryRow) : ProphetConfig :=
  let yearly_seasonality := 365 <? data_span_days historical_data in
  {| daily_seasonality := false;
     weekly_seasonality := true;
     yearly_seasonality := yearly_seasonality |}.

(** [((last_yhat - first_yhat) / (first_yhat + 1e-6)) * 100], on NumPy
    scalars: no operation raises, a zero divisor gives an infinity or
    NaN. *)
Definition trend_of (first_yhat last_yhat : float) : float :=
  (((last_yhat - first_yhat) / (first_yhat + 1e-6)) * 100)%float.

Section Forecast.

Context {prophet : ProphetAPI}.

Definition forecast (historical_data : list HistoryRow) (days : Z)
  : result ForecastResult :=
  let m := prophet_config historical_data in
  fitted <- fit m historical_data ;;
  future <- make_future_dataframe fitted days ;;
  forecast <- predict fitted future ;;
  first_yhat <- iloc (map yhat forecast) (Z.of_nat (List.length historical_data)) ;;
  last_yhat <- iloc (map yhat forecast) (-1) ;;
  let trend_percentage := trend_of first_yhat last_yhat in
  let tail := tail days forecast in
  Ok {| predictions := map to_record tail;
        trend_percentage := round2 trend_percentage;
        seasonality_mode :=
          if yearly_seasonality m then "yearly"%string else "weekly"%string |}.

End Forecast.

(** One iteration of the fallback's loop *)
Definition fallback_point (start_date : datetime) (i : Z) : result Prediction :=
  target_date <- add_days start_date i ;;
  Ok {| p_ds := DateString (strftime_Ymd target_date);
        p_yhat := 1000;
        p_yhat_lower := 800;
        p_yhat_upper := 1200 |}.

(** [start_date] is the value of [datetime.now()] at the call. *)
Definition _generate_fallback_forecast (start_date : datetime) (days : Z)
  : result ForecastResult :=
  forecast <- for_each (fallback_point start_date) (range_1_to days) ;;
  Ok {| predictions := forecast;
        trend_percentage := 0;
        seasonality_mode := "fallback" |}.

(** The prediction the fallback holds for the day [i] days after
    [start_date] *)
Definition fixed_point (start_date : datetime) (i : Z) : Prediction :=
  {| p_ds := DateString
               (strftime_Ymd {| ordinal := ordinal start_date + i;
                                microsecond_of_day := 0 |});
     p_yhat := 1000;
     p_yhat_lower := 800;
     p_yhat_upper := 1200 |}.

End Forecaster.

(** ** [predict_forecast] *)

Module ForecastHandler.

Import Forecaster.

Record ForecastPayload : Type := {
  business_id : string;
  income_forecast : list Prediction;
  income_trend : float;
  expense_forecast : list Prediction;
  expense_trend : float;
  seasonality : string;
  message : string
}.

Inductive ForecastResponse : Type :=
| Forecasted (payload : ForecastPayload)
| Failed (error : string) (message : string).

Record ForecastRequest : Type := {
  rq_business_id : string;
  income_history : list Transaction;
  expense_history : list Transaction;
  rq_days : Z
}.

Definition no_history : ForecastResult :=
  {| predictions := [];
     trend_percentage := 0;
     seasonality_mode := "none" |}.

Section Handler.

Context {prophet : ProphetAPI}.

(** [pandas.to_datetime] on one value of the column [date]: the
    timestamp in nanoseconds, or the parser's exception. *)
Variable to_datetime : string -> result Z.

Definition to_history_row (t : Transaction) : result HistoryRow :=
  stamp <- to_datetime (date t) ;;
  Ok {| h_description := description t;
        y := amount t;
        ds := stamp;
        h_vendor := vendor t |}.

(** The block the handler runs for the income history and again for the
    expense history. *)
Definition stream_forecast (history : list Transaction) (days : Z)
  : result ForecastResult :=
  match history with
  | [] => Ok no_history
  | _ :: _ =>
      df <- for_each to_history_row history ;;
      forecast df days
  end.

Definition predict_forecast (request : ForecastRequest) : ForecastResponse :=
  match
    (income_res <- stream_forecast (income_history request) (rq_days request) ;;
     expense_res <- stream_forecast (expense_history request) (rq_days request) ;;
     Ok {| business_id := rq_business_id request;
           income_forecast := predictions income_res;
           income_trend := trend_percentage income_res;
           expense_forecast := predictions expense_res;
           expense_trend := trend_percentage expense_res;
           seasonality := seasonality_mode income_res;
           message := "Advanced forecast generated successfully" |})
  with
  | Ok payload => Forecasted payload
  | Raise e => Failed (str_of_exn e) "Failed to generate forecast"
  end.

End Handler.

(** The payload of a request both of whose streams returned *)
Definition success_payload (request : ForecastRequest)
    (income_res expense_res : ForecastResult) : ForecastPayload :=
  {| business_id := rq_business_id request;
     income_forecast := predictions income_res;
     income_trend := trend_percentage income_res;
     expense_forecast := predictions expense_res;
     expense_trend := trend_percentage expense_res;
     seasonality := seasonality_mode income_res;
     message := "Advanced forecast generated successfully" |}.

End ForecastHandler.

(** ** Stand-ins for the collaborators

    Concrete implementations of the interfaces, used to run the handlers
    on sample requests.  The general statements about the handlers hold
    for every implementation; these only supply concrete inputs. *)

Module Fixture.

Import Dates Forecaster ForecastHandler.
Local Open Scope Z_scope.

Definition digit_value (c : ascii) : option Z :=
  let n := Z.of_nat (nat_of_ascii c) in
  if (48 <=? n) && (n <=? 57) then Some (n - 48) else None.

Fixpoint digits_value (acc : Z) (s : string) : option Z :=
  match s with
  | EmptyString => Some acc
  | String c s' =>
      match digit_value c with
      | Some v => digits_value (10 * acc + v) s'
      | None => None
      end
  end.

(** Days from the epoch to a civil date *)
Definition days_from_civil (y m d : Z) : Z :=
  let y' := if m <=? 2 then y - 1 else y in
  let era := y' / 400 in
  let yoe := y' - era * 400 in
  let doy := (153 * (if 2 <? m then m - 3 else m + 9) + 2) / 5 + d - 1 in
  let doe := yoe * 365 + yoe / 4 - yoe / 100 + doy in
  era * 146097 + doe - 719468.

(** A parser of dates written [YYYY-MM-DD]; anything else is refused. *)
Definition iso_to_datetime (s : string) : result Z :=
  match digits_value 0 (substring 0 4 s),
        digits_value 0 (substring 5 2 s),
        digits_value 0 (substring 8 2 s) with
  | Some y, Some m, Some d =>
      if (String.length s =? 10)%nat && (1 <=? m) && (m <=? 12) && (1 <=? d) && (d <=? 31)
      then Ok (days_from_civil y m d * ns_per_day)
      else Raise (ValueError "Unknown datetime string format")
  | _, _, _ => Raise (ValueError "Unknown datetime string format")
  end.

(** A forecaster that refuses a history of fewer than two rows, as Prophet
    does, and otherwise extends the straight line through the first and
    the last observed amount over the days of the history and of the
    horizon, one step a row, with a band of one quarter around it. *)
Definition drift_row (level : float) (stamp : Z) : ForecastRow :=
  {| f_ds := stamp;
     yhat := level;
     yhat_lower := (level * 0.75)%float;
     yhat_upper := (level * 1.25)%float |}.

Fixpoint drift_rows (level slope : float) (future : list Z) : list ForecastRow :=
  match future with
  | [] => []
  | stamp :: rest => drift_row level stamp :: drift_rows (level + slope)%float slope rest
  end.

Definition float_of_nat (n : nat) : float :=
  Nat.iter n (fun x => (x + 1)%float) 0%float.

#[export] Instance drift_prophet : ProphetAPI := {|
  Model := list HistoryRow;
  Future := list Z;
  fit := fun _ history =>
    if (List.length history <? 2)%nat
    then Raise (ValueError "Dataframe has less than 2 non-NaN rows.")
    else Ok history;
  make_future_dataframe := fun history periods =>
    let last_date := fold_left Z.max (map ds history) 0 in
    Ok (map ds history ++
        map (fun i => last_date + i * ns_per_day) (range_1_to periods));
  predict := fun history future =>
    let first_y := hd 0%float (map y history) in
    let last_y := last (map y history) 0%float in
    let slope := ((last_y - first_y) / float_of_nat (List.length history - 1))%float in
    Ok (drift_rows first_y slope future)
|}.

(** A row of a history frame dated [day] days after the epoch, [ns]
    nanoseconds into the day. *)
Definition row_at (day ns : Z) (a : float) : HistoryRow :=
  {| h_description := None; y := a; ds := day * ns_per_day + ns; h_vendor := None |}.

Definition sample (d : string) (a : float) (day : string) : Transaction :=
  {| description := Some d; amount := a; date := day; vendor := None |}.

Definition undescribed (a : float) (day : string) : Transaction :=
  {| description := None; amount := a; date := day; vendor := None |}.

End Fixture.

(** * Properties *)

(** ** Results and loops *)

Section ForEach.

Context {A B : Type}.
Variable f : A -> result B.

Lemma for_each_map (g : A -> B) (l : list A) :
  Forall (fun a => f a = Ok (g a)) l -> for_each f l = Ok (map g l).
Proof.
  induction 1 as [| a l Ha _ IH]; simpl.
  - reflexivity.
  - rewrite Ha, IH. reflexivity.
Qed.

Lemma for_each_length (l : list A) (bs : list B) :
  for_each f l = Ok bs -> List.length bs = List.length l.
Proof.
  revert bs. induction l as [| a l IH]; simpl; intros bs H.
  - injection H as <-. reflexivity.
  - destruct (f a) as [b | e]; simpl in H; [| discriminate].
    destruct (for_each f l) as [bs' | e]; simpl in H; [| discriminate].
    injection H as <-. simpl. f_equal. apply IH. reflexivity.
Qed.

Lemma for_each_raise (e0 : exn) (l : list A) :
  (forall a, In a l -> is_ok (f a) = true \/ f a = Raise e0) ->
  Exists (fun a => f a = Raise e0) l ->
  for_each f l = Raise e0.
Proof.
  intros Hall Hex. induction Hex as [a l Ha | a l _ IH]; simpl.
  - rewrite Ha. reflexivity.
  - destruct (Hall a (or_introl eq_refl)) as [Hok | Hr].
    + destruct (f a); [| discriminate]. simpl.
      rewrite IH; [reflexivity |]. intros; apply Hall; right; assumption.
    + rewrite Hr. reflexivity.
Qed.

Lemma for_each_ok_all (l : list A) (bs : list B) :
  for_each f l = Ok bs -> Forall (fun a => is_ok (f a) = true) l.
Proof.
  revert bs. induction l as [| a l IH]; simpl; intros bs H.
  - constructor.
  - destruct (f a) as [b | e] eqn:Ha; simpl in H; [| discriminate].
    destruct (for_each f l) as [bs' | e]; simpl in H; [| discriminate].
    constructor; [rewrite Ha; reflexivity | eapply IH; reflexivity].
Qed.

End ForEach.

(** ** Substrings *)

Lemma starts_with_iff (w s : string) :
  starts_with w s = true <-> exists rest, s = (w ++ rest)%string.
Proof.
  revert s. induction w as [| a w IH]; intros s; simpl.
  - split; [intros _; exists s; reflexivity | reflexivity].
  - destruct s as [| b s].
    + split; [discriminate | intros [rest H]; discriminate].
    + rewrite andb_true_iff, Ascii.eqb_eq, IH. split.
      * intros [-> [rest ->]]. exists rest. reflexivity.
      * intros [rest H]. injection H as -> ->. split; [reflexivity | eauto].
Qed.

(** [contains w s] holds exactly when [w] occurs in [s]. *)
Lemma contains_iff (w s : string) :
  contains w s = true <-> exists before rest, s = (before ++ w ++ rest)%string.
Proof.
  induction s as [| c s IH]; simpl.
  - rewrite starts_with_iff. split.
    + intros [rest H]. exists EmptyString, rest. exact H.
    + intros [before [rest H]]. destruct before; simpl in H; [eauto | discriminate].
  - rewrite orb_true_iff, starts_with_iff, IH. split.
    + intros [[rest H] | [before [rest H]]].
      * exists EmptyString, rest. exact H.
      * exists (String c before), rest. simpl. rewrite H. reflexivity.
    + intros [before [rest H]]. destruct before as [| b before]; simpl in H.
      * left. eauto.
      * right. injection H as _ H. eauto.
Qed.

Lemma any_in_iff (ws : list string) (s : string) :
  any_in ws s = true <->
  exists w before rest, In w ws /\ s = (before ++ w ++ rest)%string.
Proof.
  unfold any_in. rewrite existsb_exists. split.
  - intros [w [Hin Hc]]. apply contains_iff in Hc as [before [rest H]]. eauto.
  - intros [w [before [rest [Hin H]]]]. exists w. split; [assumption |].
    apply contains_iff. eauto.
Qed.

Lemma lower_char_idempotent (c : ascii) : lower_char (lower_char c) = lower_char c.
Proof.
  destruct c as [[] [] [] [] [] [] [] []]; reflexivity.
Qed.

Lemma lower_idempotent (s : string) : lower (lower s) = lower s.
Proof.
  induction s as [| c s IH]; simpl; [reflexivity |].
  rewrite lower_char_idempotent, IH. reflexivity.
Qed.

(** ** The categoriser *)

Module CategorizerFacts.

Import Categorizer.
Local Open Scope string_scope.

(** The chain of tests is the ordered rule table read first match first. *)
Lemma heuristic_category_first_match (text : string) :
  heuristic_category text = first_matching_rule keyword_rules text.
Proof.
  unfold heuristic_category, first_matching_rule, keyword_rules.
  cbn [find snd fst].
  repeat match goal with
         | |- context [any_in ?ws text] => destruct (any_in ws text)
         end; reflexivity.
Qed.

Lemma heuristic_step_described (tx : Transaction) :
  description tx <> None -> heuristic_step tx = Ok (heuristic_prediction tx).
Proof.
  unfold heuristic_step, heuristic_prediction. intros H.
  destruct (description tx) as [d |]; [| contradiction].
  rewrite heuristic_category_first_match. reflexivity.
Qed.

Lemma heuristic_step_cases (tx : Transaction) :
  is_ok (heuristic_step tx) = true \/
  heuristic_step tx = Raise (AttributeError "'NoneType' object has no attribute 'lower'").
Proof.
  unfold heuristic_step. destruct (description tx); [left | right]; reflexivity.
Qed.

Lemma heuristic_step_ok_iff (tx : Transaction) :
  is_ok (heuristic_step tx) = true <-> description tx <> None.
Proof.
  unfold heuristic_step. destruct (description tx); simpl; split;
    congruence.
Qed.

Lemma predict_category_described (transactions : list Transaction) :
  Forall (fun tx => description tx <> None) transactions ->
  predict_category None transactions = Ok (map heuristic_prediction transactions).
Proof.
  intros Hall. simpl. apply for_each_map.
  eapply Forall_impl; [| exact Hall].
  intros tx. apply heuristic_step_described.
Qed.

End CategorizerFacts.

(** C6. With no classifier loaded, every description is lowered and run
    through the rules rent, salaries, stock, transport, utilities,
    marketing in that order; the first rule with a keyword occurring in
    the text gives the category, "other" is the default, the confidence
    is 0.4, and the results follow the transactions one for one in
    order.  Stated for requests all of whose descriptions are present. *)
Theorem heuristic_categorization (transactions : list Transaction) :
  Forall (fun tx => description tx <> None) transactions ->
  Categorizer.predict_category None transactions
    = Ok (map Categorizer.heuristic_prediction transactions)
  /\ List.length (map Categorizer.heuristic_prediction transactions)
     = List.length transactions
  /\ (forall ws text,
        any_in ws text = true <->
        exists w before rest, In w ws /\ text = (before ++ w ++ rest)%string)
  /\ (forall d1 d2, lower d1 = lower d2 ->
        Categorizer.heuristic_category (lower d1)
        = Categorizer.heuristic_category (lower d2))
  /\ Categorizer.predict_category None
       [Fixture.sample "Paid office space rent" 100 "2024-01-01";
        Fixture.sample "Uber for business meeting" 20 "2024-01-02";
        Fixture.sample "Lunch" 5 "2024-01-03"]
     = Ok [ {| cp_description := Some "Paid office space rent"%string;
               suggested_category := "rent";
               confidence := 4 # 10 |};
            {| cp_description := Some "Uber for business meeting"%string;
               suggested_category := "transport";
               confidence := 4 # 10 |};
            {| cp_description := Some "Lunch"%string;
               suggested_category := "other";
               confidence := 4 # 10 |} ].
Proof.
  intros Hall.
  split; [apply CategorizerFacts.predict_category_described; exact Hall |].
  split; [apply length_map |].
  split; [apply any_in_iff |].
  split; [intros d1 d2 H; rewrite H; reflexivity |].
  reflexivity.
Qed.

Lemma heuristic_categorization_witness :
  Categorizer.predict_category None
    [Fixture.sample "PAID OFFICE LEASE" 100 "2024-01-01";
     Fixture.sample "Weekly staff wages" 20 "2024-01-02"]
  = Ok [ {| cp_description := Some "PAID OFFICE LEASE"%string;
            suggested_category := "rent";
            confidence := 4 # 10 |};
         {| cp_description := Some "Weekly staff wages"%string;
            suggested_category := "salaries";
            confidence := 4 # 10 |} ].
Proof.
  refine (proj1 (heuristic_categorization
    [Fixture.sample "PAID OFFICE LEASE" 100 "2024-01-01";
     Fixture.sample "Weekly staff wages" 20 "2024-01-02"] _)).
  repeat constructor; discriminate.
Defined.

(** C10. With no classifier loaded the handler returns exactly for the
    requests all of whose descriptions are present; one absent
    description makes the call of [lower] on it raise. *)
Theorem heuristic_raises_on_missing_description (transactions : list Transaction) :
  (is_ok (Categorizer.predict_category None transactions) = true <->
   Forall (fun tx => description tx <> None) transactions)
  /\ (Exists (fun tx => description tx = None) transactions ->
      Categorizer.predict_category None transactions
      = Raise (AttributeError "'NoneType' object has no attribute 'lower'")).
Proof.
  split.
  - split.
    + simpl. destruct (for_each Categorizer.heuristic_step transactions) eqn:H;
        [| discriminate].
      intros _. apply for_each_ok_all in H.
      eapply Forall_impl; [| exact H].
      intros tx. apply CategorizerFacts.heuristic_step_ok_iff.
    + intros H. rewrite (CategorizerFacts.predict_category_described _ H).
      reflexivity.
  - intros Hex. simpl. apply for_each_raise.
    + intros tx _. apply CategorizerFacts.heuristic_step_cases.
    + eapply Exists_impl; [| exact Hex].
      intros tx H. unfold Categorizer.heuristic_step. rewrite H. reflexivity.
Qed.

(** ** The forecaster *)

Module ForecasterFacts.

Import Numeric Dates Forecaster.
Local Open Scope Z_scope.

Lemma fold_max_spec (l : list Z) (d : Z) :
  In (fold_left Z.max l d) (d :: l) /\
  forall x, In x (d :: l) -> x <= fold_left Z.max l d.
Proof.
  revert d. induction l as [| a l IH]; intros d; simpl.
  - split; [left; reflexivity | intros x [<- | []]; lia].
  - destruct (IH (Z.max d a)) as [Hin Hle]. split.
    + destruct Hin as [H | H]; [| right; right; exact H].
      rewrite <- H. destruct (Z.max_spec d a) as [[_ ->] | [_ ->]]; auto.
    + intros x [<- | [<- | H]].
      * specialize (Hle (Z.max d a) (or_introl eq_refl)). lia.
      * specialize (Hle (Z.max d a) (or_introl eq_refl)). lia.
      * apply Hle. right. exact H.
Qed.

Lemma fold_min_spec (l : list Z) (d : Z) :
  In (fold_left Z.min l d) (d :: l) /\
  forall x, In x (d :: l) -> fold_left Z.min l d <= x.
Proof.
  revert d. induction l as [| a l IH]; intros d; simpl.
  - split; [left; reflexivity | intros x [<- | []]; lia].
  - destruct (IH (Z.min d a)) as [Hin Hle]. split.
    + destruct Hin as [H | H]; [| right; right; exact H].
      rewrite <- H. destruct (Z.min_spec d a) as [[_ ->] | [_ ->]]; auto.
    + intros x [<- | [<- | H]].
      * specialize (Hle (Z.min d a) (or_introl eq_refl)). lia.
      * specialize (Hle (Z.min d a) (or_introl eq_refl)). lia.
      * apply Hle. right. exact H.
Qed.

(** The span is the whole days between the earliest and the latest
    timestamp of the frame. *)
Lemma data_span_days_extremes (row : HistoryRow) (rest : list HistoryRow) :
  exists lo hi,
    In lo (map ds (row :: rest)) /\ In hi (map ds (row :: rest)) /\
    (forall d, In d (map ds (row :: rest)) -> lo <= d <= hi) /\
    data_span_days (row :: rest) = timedelta_days (hi - lo).
Proof.
  unfold data_span_days. simpl map.
  destruct (fold_max_spec (map ds rest) (ds row)) as [Hmax_in Hmax].
  destruct (fold_min_spec (map ds rest) (ds row)) as [Hmin_in Hmin].
  exists (fold_left Z.min (map ds rest) (ds row)),
         (fold_left Z.max (map ds rest) (ds row)).
  repeat split; auto.
Qed.

Lemma timedelta_days_gt (ns k : Z) :
  k < timedelta_days ns <-> (k + 1) * ns_per_day <= ns.
Proof.
  unfold timedelta_days, ns_per_day. split; intros H.
  - assert (k + 1 <= ns / 86400000000000) as H' by lia.
    pose proof (Z.mul_div_le ns 86400000000000 ltac:(lia)). nia.
  - assert (k + 1 <= ns / 86400000000000) by (apply Z.div_le_lower_bound; lia).
    lia.
Qed.

Lemma nth_error_last {A : Type} (l : list A) (d : A) :
  l <> [] -> nth_error l (List.length l - 1) = Some (last l d).
Proof.
  induction l as [| a l IH]; [congruence |]. intros _.
  destruct l as [| b l]; [reflexivity |].
  change (last (a :: b :: l) d) with (last (b :: l) d).
  rewrite <- IH by discriminate. simpl.
  rewrite Nat.sub_0_r. reflexivity.
Qed.

Lemma last_map {A B : Type} (f : A -> B) (l : list A) (d : A) :
  l <> [] -> last (map f l) (f d) = f (last l d).
Proof.
  induction l as [| a l IH]; [congruence |]. intros _.
  destruct l as [| b l]; [reflexivity |].
  change (last (map f (a :: b :: l)) (f d)) with (last (map f (b :: l)) (f d)).
  change (last (a :: b :: l) d) with (last (b :: l) d).
  apply IH. discriminate.
Qed.

Lemma iloc_nat {A : Type} (l : list A) (n : nat) (x : A) :
  nth_error l n = Some x -> iloc l (Z.of_nat n) = Ok x.
Proof.
  intros H. unfold iloc.
  assert (n < List.length l)%nat as Hn by (apply nth_error_Some; congruence).
  destruct (Z.ltb_spec (Z.of_nat n) 0); [lia |].
  destruct (Z.leb_spec 0 (Z.of_nat n)); [| lia].
  destruct (Z.ltb_spec (Z.of_nat n) (Z.of_nat (List.length l))); [| lia].
  simpl. rewrite Nat2Z.id, H. reflexivity.
Qed.

Lemma iloc_past_end {A : Type} (l : list A) (n : nat) :
  (List.length l <= n)%nat ->
  iloc l (Z.of_nat n) = Raise (IndexError "single positional indexer is out-of-bounds").
Proof.
  intros H. unfold iloc.
  destruct (Z.ltb_spec (Z.of_nat n) 0); [lia |].
  destruct (Z.ltb_spec (Z.of_nat n) (Z.of_nat (List.length l))); [lia |].
  rewrite andb_false_r. reflexivity.
Qed.

Lemma iloc_minus_one {A : Type} (l : list A) (d : A) :
  l <> [] -> iloc l (-1) = Ok (last l d).
Proof.
  intros H. unfold iloc.
  assert (0 < List.length l)%nat as Hlen by (destruct l; simpl; [congruence | lia]).
  change (-1 <? 0) with true. cbv iota.
  replace (Z.to_nat (-1 + Z.of_nat (List.length l))) with (List.length l - 1)%nat by lia.
  rewrite (nth_error_last l d H).
  destruct (Z.leb_spec 0 (-1 + Z.of_nat (List.length l))); [| lia].
  destruct (Z.ltb_spec (-1 + Z.of_nat (List.length l)) (Z.of_nat (List.length l))); [| lia].
  reflexivity.
Qed.

(** [tail n] keeps the last [n] rows. *)
Lemma tail_suffix {A : Type} (n : Z) (l : list A) :
  0 <= n <= Z.of_nat (List.length l) ->
  Z.of_nat (List.length (tail n l)) = n /\
  l = firstn (List.length l - Z.to_nat n) l ++ tail n l.
Proof.
  intros Hn. unfold tail.
  destruct (Z.eqb_spec n 0) as [-> | Hne].
  - simpl. rewrite Nat.sub_0_r, firstn_all, app_nil_r. split; reflexivity.
  - destruct (Z.ltb_spec 0 n); [| lia].
    rewrite length_skipn, firstn_skipn. split; [lia | reflexivity].
Qed.

Lemma tail_head {A : Type} (n : Z) (l : list A) (k : nat) :
  0 <= n -> Z.of_nat (List.length l) = Z.of_nat k + n ->
  nth_error (tail n l) 0 = nth_error l k.
Proof.
  intros Hn Hlen. unfold tail.
  destruct (Z.eqb_spec n 0) as [-> | Hne].
  - symmetry. apply nth_error_None. lia.
  - destruct (Z.ltb_spec 0 n); [| lia].
    rewrite nth_error_skipn.
    f_equal. lia.
Qed.

Section WithProphet.

Context {prophet : ProphetAPI}.

(** The forecaster returns as soon as the three calls of Prophet return
    and the output has a row at the index of the history's length. *)
Lemma forecast_returns (historical_data : list HistoryRow) (days : Z)
    (fitted : Model) (future : Future) (output : list ForecastRow) (first_yhat : float) :
  fit (prophet_config historical_data) historical_data = Ok fitted ->
  make_future_dataframe fitted days = Ok future ->
  predict fitted future = Ok output ->
  nth_error (map yhat output) (List.length historical_data) = Some first_yhat ->
  forecast historical_data days
  = Ok {| predictions := map to_record (tail days output);
          trend_percentage :=
            round2 (trend_of first_yhat (last (map yhat output) first_yhat));
          seasonality_mode :=
            if yearly_seasonality (prophet_config historical_data)
            then "yearly"%string else "weekly"%string |}.
Proof.
  intros Hfit Hfuture Hpredict Hfirst. unfold forecast.
  rewrite Hfit. simpl. rewrite Hfuture. simpl. rewrite Hpredict. simpl.
  rewrite (iloc_nat _ _ _ Hfirst). simpl.
  rewrite (iloc_minus_one _ first_yhat).
  - reflexivity.
  - intros Hnil. rewrite Hnil in Hfirst.
    destruct (List.length historical_data); discriminate.
Qed.

(** Whatever the forecaster returns was built that way. *)
Lemma forecast_inversion (historical_data : list HistoryRow) (days : Z)
    (res : ForecastResult) :
  forecast historical_data days = Ok res ->
  exists fitted future output first_yhat,
    fit (prophet_config historical_data) historical_data = Ok fitted /\
    make_future_dataframe fitted days = Ok future /\
    predict fitted future = Ok output /\
    nth_error (map yhat output) (List.length historical_data) = Some first_yhat /\
    res = {| predictions := map to_record (tail days output);
             trend_percentage :=
               round2 (trend_of first_yhat (last (map yhat output) first_yhat));
             seasonality_mode :=
               if yearly_seasonality (prophet_config historical_data)
               then "yearly"%string else "weekly"%string |}.
Proof.
  intros H.
  destruct (fit (prophet_config historical_data) historical_data) as [fitted |] eqn:Hfit;
    [| unfold forecast in H; rewrite Hfit in H; discriminate].
  destruct (make_future_dataframe fitted days) as [future |] eqn:Hfuture;
    [| unfold forecast in H; rewrite Hfit in H; simpl in H;
       rewrite Hfuture in H; discriminate].
  destruct (predict fitted future) as [output |] eqn:Hpredict;
    [| unfold forecast in H; rewrite Hfit in H; simpl in H;
       rewrite Hfuture in H; simpl in H; rewrite Hpredict in H; discriminate].
  destruct (nth_error (map yhat output) (List.length historical_data))
    as [first_yhat |] eqn:Hfirst.
  - exists fitted, future, output, first_yhat.
    rewrite (forecast_returns _ _ _ _ _ _ Hfit Hfuture Hpredict Hfirst) in H.
    injection H as <-. repeat split; assumption || reflexivity.
  - exfalso. unfold forecast in H. rewrite Hfit in H. simpl in H.
    rewrite Hfuture in H. simpl in H. rewrite Hpredict in H. simpl in H.
    rewrite iloc_past_end in H by (apply nth_error_None; exact Hfirst).
    discriminate.
Qed.

End WithProphet.

End ForecasterFacts.

(** C3. On a history with at least one row the model is built with
    weekly seasonality on and daily seasonality off; yearly seasonality
    is on exactly when the days between the earliest and the latest date
    (the whole days of their difference) exceed 365; the forecast that
    comes back is tagged "yearly" exactly in that case and "weekly"
    otherwise.  A history of one row has span 0. *)
Theorem seasonality_selection {prophet : Forecaster.ProphetAPI}
    (historical_data : list Forecaster.HistoryRow) :
  historical_data <> [] ->
  let m := Forecaster.prophet_config historical_data in
  Forecaster.weekly_seasonality m = true
  /\ Forecaster.daily_seasonality m = false
  /\ (exists lo hi,
        In lo (map Forecaster.ds historical_data) /\
        In hi (map Forecaster.ds historical_data) /\
        (forall d, In d (map Forecaster.ds historical_data) -> lo <= d <= hi) /\
        (Forecaster.yearly_seasonality m = true <->
         365 < Dates.timedelta_days (hi - lo)) /\
        (Forecaster.yearly_seasonality m = true <->
         366 * Dates.ns_per_day <= hi - lo))
  /\ (forall days res,
        Forecaster.forecast historical_data days = Ok res ->
        (exists fitted, Forecaster.fit m historical_data = Ok fitted) /\
        (Forecaster.yearly_seasonality m = true ->
         Forecaster.seasonality_mode res = "yearly"%string) /\
        (Forecaster.yearly_seasonality m = false ->
         Forecaster.seasonality_mode res = "weekly"%string))
  /\ (forall row, historical_data = [row] ->
        Forecaster.data_span_days historical_data = 0 /\
        Forecaster.yearly_seasonality m = false).
Proof.
  intros Hne m.
  split; [reflexivity |]. split; [reflexivity |]. split; [| split].
  - destruct historical_data as [| row rest]; [congruence |].
    destruct (ForecasterFacts.data_span_days_extremes row rest)
      as [lo [hi [Hlo [Hhi [Hbounds Hspan]]]]].
    assert (Forecaster.yearly_seasonality m = true <->
            365 < Dates.timedelta_days (hi - lo)) as Hyearly.
    { unfold m, Forecaster.prophet_config. simpl Forecaster.yearly_seasonality.
      rewrite Hspan. apply Z.ltb_lt. }
    exists lo, hi.
    split; [exact Hlo |]. split; [exact Hhi |]. split; [exact Hbounds |].
    split; [exact Hyearly |].
    rewrite Hyearly. apply (ForecasterFacts.timedelta_days_gt (hi - lo) 365).
  - intros days res H.
    apply ForecasterFacts.forecast_inversion in H
      as [fitted [future [output [first_yhat [Hfit [_ [_ [_ ->]]]]]]]].
    split; [exists fitted; exact Hfit |].
    fold m. simpl. split; intros ->; reflexivity.
  - intros row ->. unfold m, Forecaster.prophet_config, Forecaster.data_span_days.
    simpl. rewrite Z.sub_diag. split; reflexivity.
Qed.

Lemma seasonality_selection_witness :
  Forecaster.yearly_seasonality
    (Forecaster.prophet_config
       [Fixture.row_at 19358 0 100; Fixture.row_at 19724 0 150]) = true
  /\ Forecaster.seasonality_mode
       (match Forecaster.forecast (prophet := Fixture.drift_prophet)
                [Fixture.row_at 19358 0 100; Fixture.row_at 19724 0 150] 3 with
        | Ok res => res
        | Raise _ => ForecastHandler.no_history
        end) = "yearly"%string.
Proof.
  pose proof (seasonality_selection (prophet := Fixture.drift_prophet)
                [Fixture.row_at 19358 0 100; Fixture.row_at 19724 0 150]
                ltac:(discriminate)) as [_ [_ [_ [Hmode _]]]].
  split; [reflexivity |].
  destruct (Forecaster.forecast (prophet := Fixture.drift_prophet)
              [Fixture.row_at 19358 0 100; Fixture.row_at 19724 0 150] 3)
    as [res |] eqn:Hres.
  - destruct (Hmode 3 res Hres) as [_ [Hyearly _]]. apply Hyearly. reflexivity.
  - vm_compute in Hres. discriminate.
Defined.

(** C4, amended. When the three calls of Prophet return and the combined
    output has a row at index [len(historical_data)], the forecaster
    returns.  Its predictions are the last [days] rows of that output,
    [days] of them, whenever the output holds that many rows; each
    prediction carries the timestamp, the value and the two bounds of its
    row.  Its trend is the rounded quotient of the output's value at
    index [len(historical_data)] and the output's last value, and of
    nothing else.  When the output is one row per row of history
    followed by the horizon, the row at that index is the first of the
    predictions. *)
Theorem forecast_predictions_and_trend {prophet : Forecaster.ProphetAPI}
    (historical_data : list Forecaster.HistoryRow) (days : Z)
    (fitted : Forecaster.Model) (future : Forecaster.Future)
    (output : list Forecaster.ForecastRow) :
  Forecaster.fit (Forecaster.prophet_config historical_data) historical_data
    = Ok fitted ->
  Forecaster.make_future_dataframe fitted days = Ok future ->
  Forecaster.predict fitted future = Ok output ->
  (List.length historical_data < List.length output)%nat ->
  exists res first_row last_row,
    Forecaster.forecast historical_data days = Ok res
    /\ nth_error output (List.length historical_data) = Some first_row
    /\ nth_error output (List.length output - 1) = Some last_row
    /\ Forecaster.trend_percentage res
       = (Numeric.rint
            ((((Forecaster.yhat last_row - Forecaster.yhat first_row)
               / (Forecaster.yhat first_row + 1e-6)) * 100) * 100) / 100)%float
    /\ (0 <= days <= Z.of_nat (List.length output) ->
        exists older recent,
          output = older ++ recent
          /\ Z.of_nat (List.length recent) = days
          /\ Z.of_nat (List.length (Forecaster.predictions res)) = days
          /\ Forecaster.predictions res
             = map (fun row =>
                      {| Forecaster.p_ds := Forecaster.Timestamp (Forecaster.f_ds row);
                         Forecaster.p_yhat := Forecaster.yhat row;
                         Forecaster.p_yhat_lower := Forecaster.yhat_lower row;
                         Forecaster.p_yhat_upper := Forecaster.yhat_upper row |})
                   recent)
    /\ (0 <= days ->
        Z.of_nat (List.length output)
        = Z.of_nat (List.length historical_data) + days ->
        nth_error (Forecaster.predictions res) 0
        = Some {| Forecaster.p_ds := Forecaster.Timestamp (Forecaster.f_ds first_row);
                  Forecaster.p_yhat := Forecaster.yhat first_row;
                  Forecaster.p_yhat_lower := Forecaster.yhat_lower first_row;
                  Forecaster.p_yhat_upper := Forecaster.yhat_upper first_row |}).
Proof.
  intros Hfit Hfuture Hpredict Hrow.
  destruct (nth_error output (List.length historical_data)) as [first_row |] eqn:Hfirst;
    [| apply nth_error_None in Hfirst; lia].
  assert (output <> []) as Hne by (intros ->; simpl in Hrow; lia).
  pose proof (ForecasterFacts.nth_error_last output first_row Hne) as Hlast.
  assert (nth_error (map Forecaster.yhat output) (List.length historical_data)
          = Some (Forecaster.yhat first_row)) as Hfirst_yhat
    by (rewrite nth_error_map, Hfirst; reflexivity).
  eexists. exists first_row, (last output first_row).
  split;
    [apply (ForecasterFacts.forecast_returns _ _ _ _ _ _
              Hfit Hfuture Hpredict Hfirst_yhat) |].
  cbn [Forecaster.predictions Forecaster.trend_percentage].
  split; [reflexivity |]. split; [exact Hlast |]. split; [| split].
  - unfold Numeric.round2, Forecaster.trend_of.
    rewrite (ForecasterFacts.last_map Forecaster.yhat output first_row Hne).
    reflexivity.
  - intros Hdays.
    destruct (ForecasterFacts.tail_suffix days output Hdays) as [Hlen Hsplit].
    exists (firstn (List.length output - Z.to_nat days) output),
           (Forecaster.tail days output).
    split; [exact Hsplit |]. split; [exact Hlen |].
    split; [rewrite length_map; exact Hlen | reflexivity].
  - intros Hdays Hlen.
    rewrite nth_error_map.
    rewrite (ForecasterFacts.tail_head days output _ Hdays Hlen), Hfirst.
    reflexivity.
Qed.

Lemma forecast_predictions_and_trend_witness :
  exists res,
    Forecaster.forecast (prophet := Fixture.drift_prophet)
      [Fixture.row_at 19723 0 100; Fixture.row_at 19725 0 150] 3 = Ok res
    /\ Forecaster.predictions res
       = [ {| Forecaster.p_ds := Forecaster.Timestamp (19726 * Dates.ns_per_day);
              Forecaster.p_yhat := 200;
              Forecaster.p_yhat_lower := 150;
              Forecaster.p_yhat_upper := 250 |};
           {| Forecaster.p_ds := Forecaster.Timestamp (19727 * Dates.ns_per_day);
              Forecaster.p_yhat := 250;
              Forecaster.p_yhat_lower := 187.5;
              Forecaster.p_yhat_upper := 312.5 |};
           {| Forecaster.p_ds := Forecaster.Timestamp (19728 * Dates.ns_per_day);
              Forecaster.p_yhat := 300;
              Forecaster.p_yhat_lower := 225;
              Forecaster.p_yhat_upper := 375 |} ]
    /\ Forecaster.trend_percentage res = 50%float.
Proof.
  pose proof (forecast_predictions_and_trend (prophet := Fixture.drift_prophet)
                [Fixture.row_at 19723 0 100; Fixture.row_at 19725 0 150] 3
                _ _ _ eq_refl eq_refl eq_refl) as H.
  destruct H as [res [first_row [last_row [Hres [Hfirst [Hlast [Htrend [Hpred _]]]]]]]];
    [apply Nat.ltb_lt; reflexivity |].
  exists res. split; [exact Hres |].
  vm_compute in Hres. injection Hres as <-.
  split; vm_compute; reflexivity.
Defined.

(** C4 as stated fails for a horizon of zero days: fitting succeeds on a
    history of two rows, the combined output has one row per row of
    history and none after them, the read at index [len(historical_data)]
    raises, and the request is answered with the error payload instead
    of a forecast with no predictions. *)
Lemma forecast_raises_without_horizon :
  [Fixture.row_at 19723 0 100; Fixture.row_at 19725 0 150] <> []
  /\ is_ok (Forecaster.fit (ProphetAPI := Fixture.drift_prophet)
              (Forecaster.prophet_config
                 [Fixture.row_at 19723 0 100; Fixture.row_at 19725 0 150])
              [Fixture.row_at 19723 0 100; Fixture.row_at 19725 0 150]) = true
  /\ Forecaster.forecast (prophet := Fixture.drift_prophet)
       [Fixture.row_at 19723 0 100; Fixture.row_at 19725 0 150] 0
     = Raise (IndexError "single positional indexer is out-of-bounds")
  /\ ForecastHandler.predict_forecast (prophet := Fixture.drift_prophet)
       Fixture.iso_to_datetime
       {| ForecastHandler.rq_business_id := "biz-1";
          ForecastHandler.income_history :=
            [Fixture.sample "sale" 100 "2024-01-01";
             Fixture.sample "sale" 150 "2024-01-03"];
          ForecastHandler.expense_history := [];
          ForecastHandler.rq_days := 0 |}
     = ForecastHandler.Failed "single positional indexer is out-of-bounds"
         "Failed to generate forecast".
Proof.
  split; [discriminate |]. split; [reflexivity |]. split; reflexivity.
Qed.

(** C5. Whatever Prophet returns, the trend of a forecast that comes back
    is [((last - first) / (first + 1e-6)) * 100], computed in binary64 on
    the output's value at index [len(historical_data)] and its last
    value, and rounded to two decimal places by [rint(x * 100) / 100].
    From 100 to 150 it is 50.0; from 0 to 10 it is the finite number
    1000000000.0.  No pair of values makes the computation raise: a zero
    divisor gives an infinity or NaN, and so does an overflow. *)
Theorem trend_percentage_formula :
  (forall first_yhat last_yhat : float,
      Numeric.round2 (Forecaster.trend_of first_yhat last_yhat)
      = (Numeric.rint
           ((((last_yhat - first_yhat) / (first_yhat + 1e-6)) * 100) * 100)
         / 100)%float)
  /\ (forall (prophet : Forecaster.ProphetAPI) historical_data days
             fitted future output first_row,
        Forecaster.fit (Forecaster.prophet_config historical_data) historical_data
          = Ok fitted ->
        Forecaster.make_future_dataframe fitted days = Ok future ->
        Forecaster.predict fitted future = Ok output ->
        nth_error output (List.length historical_data) = Some first_row ->
        exists res,
          Forecaster.forecast historical_data days = Ok res /\
          Forecaster.trend_percentage res
          = Numeric.round2
              (Forecaster.trend_of (Forecaster.yhat first_row)
                 (Forecaster.yhat (last output first_row))))
  /\ (forall (prophet : Forecaster.ProphetAPI) historical_data days res,
        Forecaster.forecast historical_data days = Ok res ->
        exists fitted future output first_row,
          Forecaster.fit (Forecaster.prophet_config historical_data) historical_data
            = Ok fitted /\
          Forecaster.make_future_dataframe fitted days = Ok future /\
          Forecaster.predict fitted future = Ok output /\
          nth_error output (List.length historical_data) = Some first_row /\
          Forecaster.trend_percentage res
          = Numeric.round2
              (Forecaster.trend_of (Forecaster.yhat first_row)
                 (Forecaster.yhat (last output first_row))))
  /\ Numeric.round2 (Forecaster.trend_of 100 150) = 50%float
  /\ Numeric.round2 (Forecaster.trend_of 0 10) = 1000000000%float
  /\ is_infinity 1000000000 = false
  /\ is_nan 1000000000 = false
  /\ Numeric.round2 (Forecaster.trend_of 90 120) = 33.33%float
  /\ Numeric.round2 (Forecaster.trend_of 200 0) = (-100)%float
  /\ Numeric.round2 (Forecaster.trend_of (-1e-6) 10) = infinity
  /\ is_nan (Numeric.round2 (Forecaster.trend_of (-1e-6) (-1e-6))) = true
  /\ Numeric.round2 (Forecaster.trend_of 0 1e305) = infinity
  /\ (exists res,
        Forecaster.forecast (prophet := Fixture.drift_prophet)
          [Fixture.row_at 19723 0 100; Fixture.row_at 19725 0 150] 3 = Ok res
        /\ Forecaster.trend_percentage res = 50%float).
Proof.
  split; [reflexivity |].
  split.
  { intros prophet historical_data days fitted future output first_row
           Hfit Hfuture Hpredict Hfirst.
    assert (output <> []) as Hne
      by (intros ->; destruct (List.length historical_data); discriminate).
    eexists. split.
    - apply (ForecasterFacts.forecast_returns _ _ _ _ _ (Forecaster.yhat first_row)
               Hfit Hfuture Hpredict).
      rewrite nth_error_map, Hfirst. reflexivity.
    - cbn [Forecaster.trend_percentage].
      rewrite (ForecasterFacts.last_map Forecaster.yhat output first_row Hne).
      reflexivity. }
  split.
  { intros prophet historical_data days res H.
    apply ForecasterFacts.forecast_inversion in H
      as [fitted [future [output [first_yhat [Hfit [Hfuture [Hpredict [Hfirst ->]]]]]]]].
    rewrite nth_error_map in Hfirst.
    destruct (nth_error output (List.length historical_data)) as [first_row |] eqn:Hrow;
      [| discriminate].
    injection Hfirst as <-.
    assert (output <> []) as Hne
      by (intros ->; destruct (List.length historical_data); discriminate).
    exists fitted, future, output, first_row.
    repeat (split; [assumption || reflexivity |]).
    cbn [Forecaster.trend_percentage].
    rewrite (ForecasterFacts.last_map Forecaster.yhat output first_row Hne).
    reflexivity. }
  repeat (split; [vm_compute; reflexivity |]).
  eexists. split; vm_compute; reflexivity.
Qed.

(** ** The forecast handler *)

Module HandlerFacts.

Import Forecaster ForecastHandler.

Section WithCollaborators.

Context {prophet : ProphetAPI}.
Variable to_datetime : string -> result Z.

Lemma predict_forecast_both (request : ForecastRequest)
    (income_res expense_res : ForecastResult) :
  stream_forecast to_datetime (income_history request) (rq_days request) = Ok income_res ->
  stream_forecast to_datetime (expense_history request) (rq_days request) = Ok expense_res ->
  predict_forecast to_datetime request
  = Forecasted (success_payload request income_res expense_res).
Proof.
  intros Hi He. unfold predict_forecast. rewrite Hi. simpl. rewrite He. reflexivity.
Qed.

Lemma predict_forecast_income_raises (request : ForecastRequest) (e : exn) :
  stream_forecast to_datetime (income_history request) (rq_days request) = Raise e ->
  predict_forecast to_datetime request
  = Failed (str_of_exn e) "Failed to generate forecast".
Proof.
  intros Hi. unfold predict_forecast. rewrite Hi. reflexivity.
Qed.

Lemma predict_forecast_expense_raises (request : ForecastRequest)
    (income_res : ForecastResult) (e : exn) :
  stream_forecast to_datetime (income_history request) (rq_days request) = Ok income_res ->
  stream_forecast to_datetime (expense_history request) (rq_days request) = Raise e ->
  predict_forecast to_datetime request
  = Failed (str_of_exn e) "Failed to generate forecast".
Proof.
  intros Hi He. unfold predict_forecast. rewrite Hi. simpl. rewrite He. reflexivity.
Qed.

Lemma predict_forecast_inversion (request : ForecastRequest) (payload : ForecastPayload) :
  predict_forecast to_datetime request = Forecasted payload ->
  exists income_res expense_res,
    stream_forecast to_datetime (income_history request) (rq_days request) = Ok income_res /\
    stream_forecast to_datetime (expense_history request) (rq_days request) = Ok expense_res /\
    payload = success_payload request income_res expense_res.
Proof.
  intros H.
  destruct (stream_forecast to_datetime (income_history request) (rq_days request))
    as [income_res | e] eqn:Hi.
  - destruct (stream_forecast to_datetime (expense_history request) (rq_days request))
      as [expense_res | e] eqn:He.
    + rewrite (predict_forecast_both _ _ _ Hi He) in H. injection H as <-.
      exists income_res, expense_res. repeat split.
    + rewrite (predict_forecast_expense_raises _ _ _ Hi He) in H. discriminate.
  - rewrite (predict_forecast_income_raises _ _ Hi) in H. discriminate.
Qed.

(** The three tags a stream's result can carry. *)
Lemma stream_forecast_mode (history : list Transaction) (days : Z) (res : ForecastResult) :
  stream_forecast to_datetime history days = Ok res ->
  (history = [] /\ res = no_history) \/
  (history <> [] /\
   (seasonality_mode res = "weekly"%string \/ seasonality_mode res = "yearly"%string)).
Proof.
  destruct history as [| t history]; simpl.
  - intros H. injection H as <-. left. split; reflexivity.
  - intros H. right. split; [discriminate |].
    destruct (to_history_row to_datetime t) as [r |]; simpl in H; [| discriminate].
    destruct (for_each (to_history_row to_datetime) history) as [rs |];
      simpl in H; [| discriminate].
    apply ForecasterFacts.forecast_inversion in H
      as [fitted [future [output [first_yhat [_ [_ [_ [_ ->]]]]]]]].
    simpl. destruct (365 <? data_span_days (r :: rs))%Z; [right | left]; reflexivity.
Qed.

(** A non-empty history whose dates parse and on which fitting raises
    makes the stream raise what fitting raised. *)
Lemma stream_forecast_fit_raises (history : list Transaction) (days : Z)
    (df : list HistoryRow) (e : exn) :
  history <> [] ->
  for_each (to_history_row to_datetime) history = Ok df ->
  fit (prophet_config df) df = Raise e ->
  stream_forecast to_datetime history days = Raise e.
Proof.
  intros Hne Hdf Hfit. destruct history as [| t history]; [congruence |].
  unfold stream_forecast. rewrite Hdf. simpl. unfold forecast. rewrite Hfit.
  reflexivity.
Qed.

End WithCollaborators.

End HandlerFacts.

(** ** The fallback generator *)

Module FallbackFacts.

Import Dates Forecaster.
Local Open Scope Z_scope.

Lemma for_each_first_raise {A B : Type} (f : A -> result B)
    (before : list A) (a : A) (after : list A) (bs : list B) (e : exn) :
  for_each f before = Ok bs -> f a = Raise e ->
  for_each f (before ++ a :: after) = Raise e.
Proof.
  revert bs. induction before as [| x before IH]; simpl; intros bs Hb Ha.
  - rewrite Ha. reflexivity.
  - destruct (f x); simpl in *; [| discriminate].
    destruct (for_each f before) as [bs' |] eqn:Hbs; simpl in Hb; [| discriminate].
    rewrite (IH bs' eq_refl Ha). reflexivity.
Qed.

Lemma range_1_to_In (days i : Z) : In i (range_1_to days) <-> 1 <= i <= days.
Proof.
  unfold range_1_to. rewrite in_map_iff. split.
  - intros [n [<- Hn]]. apply in_seq in Hn. lia.
  - intros H. exists (Z.to_nat i). split; [lia |]. apply in_seq. lia.
Qed.

Lemma range_1_to_length (days : Z) :
  0 <= days -> Z.of_nat (List.length (range_1_to days)) = days.
Proof.
  intros H. unfold range_1_to. rewrite length_map, length_seq. lia.
Qed.

Lemma range_1_to_nth (days i : Z) :
  1 <= i <= days -> nth_error (range_1_to days) (Z.to_nat (i - 1)) = Some i.
Proof.
  intros H. unfold range_1_to.
  rewrite nth_error_map, nth_error_seq.
  destruct (Nat.ltb_spec (Z.to_nat (i - 1)) (Z.to_nat days)); [| lia].
  simpl. f_equal. lia.
Qed.

Lemma range_1_to_nonpositive (days : Z) : days <= 0 -> range_1_to days = [].
Proof.
  intros H. unfold range_1_to. replace (Z.to_nat days) with 0%nat by lia. reflexivity.
Qed.

Lemma range_1_to_split (k days : Z) :
  0 <= k < days ->
  exists after, range_1_to days = range_1_to k ++ (k + 1) :: after.
Proof.
  intros H. unfold range_1_to.
  replace (Z.to_nat days) with (Z.to_nat k + S (Z.to_nat (days - k - 1)))%nat by lia.
  rewrite seq_app, map_app. simpl.
  eexists. f_equal. f_equal. lia.
Qed.

(** The point the loop appends for the day [i] days after [start_date] *)
Lemma fallback_point_in_range (start_date : datetime) (i : Z) :
  1 <= ordinal start_date -> 1 <= i -> ordinal start_date + i <= MAXORDINAL ->
  fallback_point start_date i
  = Ok {| p_ds := DateString
                    (strftime_Ymd {| ordinal := ordinal start_date + i;
                                     microsecond_of_day := microsecond_of_day start_date |});
          p_yhat := 1000;
          p_yhat_lower := 800;
          p_yhat_upper := 1200 |}.
Proof.
  intros Hstart Hi Hmax. unfold fallback_point, add_days, MAXORDINAL in *.
  destruct (Z.ltb_spec 999999999 (Z.abs i)); [lia |].
  destruct (Z.leb_spec 1 (ordinal start_date + i)); [| lia].
  destruct (Z.leb_spec (ordinal start_date + i) 3652059); [| lia].
  reflexivity.
Qed.

Lemma fallback_point_past_calendar (start_date : datetime) (i : Z) :
  1 <= i <= 999999999 -> MAXORDINAL < ordinal start_date + i ->
  fallback_point start_date i = Raise (OverflowError "date value out of range").
Proof.
  intros Hi Hmax. unfold fallback_point, add_days, MAXORDINAL in *.
  destruct (Z.ltb_spec 999999999 (Z.abs i)); [lia |].
  destruct (Z.leb_spec (ordinal start_date + i) 3652059); [lia |].
  rewrite andb_false_r. reflexivity.
Qed.

(** The day's date does not depend on the time within the day. *)
Lemma strftime_Ymd_day (d1 d2 : datetime) :
  ordinal d1 = ordinal d2 -> strftime_Ymd d1 = strftime_Ymd d2.
Proof. unfold strftime_Ymd. intros ->. reflexivity. Qed.

Lemma fallback_in_range (start_date : datetime) (days : Z) :
  1 <= ordinal start_date -> ordinal start_date + days <= MAXORDINAL ->
  _generate_fallback_forecast start_date days
  = Ok {| predictions := map (fixed_point start_date) (range_1_to days);
          trend_percentage := 0%float;
          seasonality_mode := "fallback" |}.
Proof.
  intros Hstart Hmax. unfold _generate_fallback_forecast.
  rewrite (for_each_map _ (fixed_point start_date)); [reflexivity |].
  apply Forall_forall. intros i Hi. apply range_1_to_In in Hi.
  rewrite fallback_point_in_range by lia.
  reflexivity.
Qed.

(** A horizon that leaves the calendar makes the date arithmetic raise. *)
Lemma fallback_past_calendar (start_date : datetime) (days : Z) :
  1 <= ordinal start_date <= MAXORDINAL ->
  MAXORDINAL < ordinal start_date + days ->
  _generate_fallback_forecast start_date days
  = Raise (OverflowError "date value out of range").
Proof.
  intros Hstart Hmax. unfold _generate_fallback_forecast.
  destruct (range_1_to_split (MAXORDINAL - ordinal start_date) days ltac:(lia))
    as [after ->].
  erewrite for_each_first_raise; [reflexivity | |].
  - apply (for_each_map _ (fixed_point start_date)).
    apply Forall_forall. intros i Hi. apply range_1_to_In in Hi.
    rewrite fallback_point_in_range by lia.
    reflexivity.
  - apply fallback_point_past_calendar; unfold MAXORDINAL in *; lia.
Qed.

(** A horizon of zero or fewer days gives no prediction. *)
Lemma fallback_nonpositive (start_date : datetime) (days : Z) :
  days <= 0 ->
  _generate_fallback_forecast start_date days
  = Ok {| predictions := [];
          trend_percentage := 0%float;
          seasonality_mode := "fallback" |}.
Proof.
  intros H. unfold _generate_fallback_forecast.
  rewrite range_1_to_nonpositive by exact H. reflexivity.
Qed.

Lemma fallback_mode (start_date : datetime) (days : Z) (res : ForecastResult) :
  _generate_fallback_forecast start_date days = Ok res ->
  seasonality_mode res = "fallback"%string /\ trend_percentage res = 0%float.
Proof.
  unfold _generate_fallback_forecast.
  destruct (for_each (fallback_point start_date) (range_1_to days)); simpl;
    [| discriminate].
  intros H. injection H as <-. split; reflexivity.
Qed.

End FallbackFacts.

(** C8. For a horizon of [days] days, counted from a generation time
    [start_date] and staying within the calendar, the fallback generator
    returns exactly [days] predictions; the i-th carries the date of the
    i-th day after the generation day, the point estimate 1000 and the
    bounds 800 and 1200; the trend is 0.0 and the mode is "fallback".
    A second call at any time of the same day returns the same result. *)
Theorem fallback_forecast_fixed (start_date : Dates.datetime) (days : Z) :
  0 <= days ->
  1 <= Dates.ordinal start_date ->
  Dates.ordinal start_date + days <= Dates.MAXORDINAL ->
  exists res,
    Forecaster._generate_fallback_forecast start_date days = Ok res
    /\ Z.of_nat (List.length (Forecaster.predictions res)) = days
    /\ (forall i, 1 <= i <= days ->
          nth_error (Forecaster.predictions res) (Z.to_nat (i - 1))
          = Some {| Forecaster.p_ds :=
                      Forecaster.DateString
                        (Dates.strftime_Ymd
                           {| Dates.ordinal := Dates.ordinal start_date + i;
                              Dates.microsecond_of_day :=
                                Dates.microsecond_of_day start_date |});
                    Forecaster.p_yhat := 1000;
                    Forecaster.p_yhat_lower := 800;
                    Forecaster.p_yhat_upper := 1200 |})
    /\ Forecaster.trend_percentage res = 0%float
    /\ Forecaster.seasonality_mode res = "fallback"%string
    /\ (forall other,
          Dates.ordinal other = Dates.ordinal start_date ->
          Forecaster._generate_fallback_forecast other days = Ok res).
Proof.
  intros Hdays Hstart Hmax.
  eexists. split; [apply FallbackFacts.fallback_in_range; assumption |].
  cbn [Forecaster.predictions Forecaster.trend_percentage Forecaster.seasonality_mode].
  split; [| split; [| split; [| split]]].
  - rewrite length_map. apply FallbackFacts.range_1_to_length. exact Hdays.
  - intros i Hi. rewrite nth_error_map, (FallbackFacts.range_1_to_nth days i Hi).
    reflexivity.
  - reflexivity.
  - reflexivity.
  - intros other Hsame.
    rewrite FallbackFacts.fallback_in_range by (rewrite Hsame; assumption).
    do 2 f_equal. apply map_ext. intros i.
    unfold Forecaster.fixed_point. rewrite Hsame. reflexivity.
Qed.

Lemma fallback_forecast_fixed_witness :
  exists res,
    Forecaster._generate_fallback_forecast
      {| Dates.ordinal := 739924; Dates.microsecond_of_day := 43200000000 |} 3
    = Ok res
    /\ map Forecaster.p_ds (Forecaster.predictions res)
       = [Forecaster.DateString "2026-11-05";
          Forecaster.DateString "2026-11-06";
          Forecaster.DateString "2026-11-07"].
Proof.
  destruct (fallback_forecast_fixed
              {| Dates.ordinal := 739924; Dates.microsecond_of_day := 43200000000 |} 3
              ltac:(lia) ltac:(simpl; lia) ltac:(unfold Dates.MAXORDINAL; simpl; lia))
    as [res [Hres _]].
  exists res. split; [exact Hres |].
  vm_compute in Hres. injection Hres as <-. reflexivity.
Defined.

(** C7. A stream whose history is empty gets the result with no
    predictions, trend 0.0 and mode "none", without a call of the
    forecaster; the fallback generator never returns that result; and a
    response that comes back carries it in the fields of that stream. *)
Theorem empty_history_gives_none_result {prophet : Forecaster.ProphetAPI}
    (to_datetime : string -> result Z) (days : Z) :
  ForecastHandler.stream_forecast to_datetime [] days
  = Ok {| Forecaster.predictions := [];
          Forecaster.trend_percentage := 0%float;
          Forecaster.seasonality_mode := "none" |}
  /\ (forall start_date horizon res,
        Forecaster._generate_fallback_forecast start_date horizon = Ok res ->
        res <> ForecastHandler.no_history)
  /\ (forall request,
        ForecastHandler.income_history request = [] ->
        ForecastHandler.expense_history request = [] ->
        ForecastHandler.predict_forecast to_datetime request
        = ForecastHandler.Forecasted
            {| ForecastHandler.business_id := ForecastHandler.rq_business_id request;
               ForecastHandler.income_forecast := [];
               ForecastHandler.income_trend := 0%float;
               ForecastHandler.expense_forecast := [];
               ForecastHandler.expense_trend := 0%float;
               ForecastHandler.seasonality := "none";
               ForecastHandler.message := "Advanced forecast generated successfully" |})
  /\ (forall request payload,
        ForecastHandler.predict_forecast to_datetime request
        = ForecastHandler.Forecasted payload ->
        (ForecastHandler.income_history request = [] ->
         ForecastHandler.income_forecast payload = [] /\
         ForecastHandler.income_trend payload = 0%float /\
         ForecastHandler.seasonality payload = "none"%string) /\
        (ForecastHandler.expense_history request = [] ->
         ForecastHandler.expense_forecast payload = [] /\
         ForecastHandler.expense_trend payload = 0%float)).
Proof.
  split; [reflexivity |]. split; [| split].
  - intros start_date horizon res H Heq.
    apply FallbackFacts.fallback_mode in H as [Hmode _].
    rewrite Heq in Hmode. discriminate.
  - intros request Hi He.
    unfold ForecastHandler.predict_forecast. rewrite Hi, He. reflexivity.
  - intros request payload H.
    apply HandlerFacts.predict_forecast_inversion in H
      as [income_res [expense_res [Hi [He ->]]]].
    split; intros Hnil.
    + rewrite Hnil in Hi. injection Hi as <-. repeat split.
    + rewrite Hnil in He. injection He as <-. repeat split.
Qed.

(** C9. The response's one field [seasonality] is the mode of the income
    stream's result, whatever the expense stream's mode is.  With an
    empty income history and a non-empty expense history it reads "none"
    although the expense forecast, tagged "weekly" or "yearly", is in the
    response. *)
Theorem seasonality_is_income_mode {prophet : Forecaster.ProphetAPI}
    (to_datetime : string -> result Z) (request : ForecastHandler.ForecastRequest)
    (income_res expense_res : Forecaster.ForecastResult) :
  ForecastHandler.stream_forecast to_datetime
    (ForecastHandler.income_history request) (ForecastHandler.rq_days request)
    = Ok income_res ->
  ForecastHandler.stream_forecast to_datetime
    (ForecastHandler.expense_history request) (ForecastHandler.rq_days request)
    = Ok expense_res ->
  exists payload,
    ForecastHandler.predict_forecast to_datetime request
    = ForecastHandler.Forecasted payload
    /\ ForecastHandler.seasonality payload = Forecaster.seasonality_mode income_res
    /\ ForecastHandler.expense_forecast payload = Forecaster.predictions expense_res
    /\ (ForecastHandler.income_history request = [] ->
        ForecastHandler.expense_history request <> [] ->
        ForecastHandler.seasonality payload = "none"%string /\
        (Forecaster.seasonality_mode expense_res = "weekly"%string \/
         Forecaster.seasonality_mode expense_res = "yearly"%string)).
Proof.
  intros Hi He.
  exists (ForecastHandler.success_payload request income_res expense_res).
  split; [apply HandlerFacts.predict_forecast_both; assumption |].
  split; [reflexivity |]. split; [reflexivity |].
  intros Hnil Hne. split.
  - rewrite Hnil in Hi. injection Hi as <-. reflexivity.
  - destruct (HandlerFacts.stream_forecast_mode _ _ _ _ He) as [[H _] | [_ H]];
      [contradiction | exact H].
Qed.

Lemma seasonality_is_income_mode_witness :
  exists payload,
    ForecastHandler.predict_forecast (prophet := Fixture.drift_prophet)
      Fixture.iso_to_datetime
      {| ForecastHandler.rq_business_id := "biz-1";
         ForecastHandler.income_history := [];
         ForecastHandler.expense_history :=
           [Fixture.sample "rent" 100 "2024-01-01";
            Fixture.sample "rent" 150 "2024-01-03"];
         ForecastHandler.rq_days := 2 |}
    = ForecastHandler.Forecasted payload
    /\ ForecastHandler.seasonality payload = "none"%string
    /\ map Forecaster.p_yhat (ForecastHandler.expense_forecast payload)
       = [200; 250]%float.
Proof.
  destruct (seasonality_is_income_mode (prophet := Fixture.drift_prophet)
              Fixture.iso_to_datetime
              {| ForecastHandler.rq_business_id := "biz-1";
                 ForecastHandler.income_history := [];
                 ForecastHandler.expense_history :=
                   [Fixture.sample "rent" 100 "2024-01-01";
                    Fixture.sample "rent" 150 "2024-01-03"];
                 ForecastHandler.rq_days := 2 |}
              _ _ eq_refl eq_refl)
    as [payload [Hp [Hmode [Hexp _]]]].
  exists payload. split; [exact Hp |].
  rewrite Hmode, Hexp. split; reflexivity.
Defined.

(** C1. A history on which fitting raises, as it does for too little
    data, makes the handler answer with the error payload that carries
    the exception's text; the fallback generator is not called, and no
    response that comes back is tagged "fallback". *)
Theorem insufficient_history_is_error_payload {prophet : Forecaster.ProphetAPI}
    (to_datetime : string -> result Z) (request : ForecastHandler.ForecastRequest)
    (df : list Forecaster.HistoryRow) (e : exn) :
  ForecastHandler.income_history request <> [] ->
  for_each (ForecastHandler.to_history_row to_datetime)
    (ForecastHandler.income_history request) = Ok df ->
  Forecaster.fit (Forecaster.prophet_config df) df = Raise e ->
  ForecastHandler.predict_forecast to_datetime request
  = ForecastHandler.Failed (str_of_exn e) "Failed to generate forecast"
  /\ (forall start_date res,
        Forecaster._generate_fallback_forecast start_date
          (ForecastHandler.rq_days request) = Ok res ->
        Forecaster.seasonality_mode res = "fallback"%string)
  /\ (forall other payload,
        ForecastHandler.predict_forecast to_datetime other
        = ForecastHandler.Forecasted payload ->
        ForecastHandler.seasonality payload <> "fallback"%string).
Proof.
  intros Hne Hdf Hfit. split; [| split].
  - apply HandlerFacts.predict_forecast_income_raises.
    apply (HandlerFacts.stream_forecast_fit_raises _ _ _ df); assumption.
  - intros start_date res H. apply (FallbackFacts.fallback_mode _ _ _ H).
  - intros other payload H.
    apply HandlerFacts.predict_forecast_inversion in H
      as [income_res [expense_res [Hi [_ ->]]]].
    simpl.
    destruct (HandlerFacts.stream_forecast_mode _ _ _ _ Hi) as [[_ ->] | [_ [-> | ->]]];
      discriminate.
Qed.

Lemma insufficient_history_is_error_payload_witness :
  ForecastHandler.predict_forecast (prophet := Fixture.drift_prophet)
    Fixture.iso_to_datetime
    {| ForecastHandler.rq_business_id := "biz-1";
       ForecastHandler.income_history := [Fixture.sample "sale" 100 "2024-01-01"];
       ForecastHandler.expense_history := [];
       ForecastHandler.rq_days := 30 |}
  = ForecastHandler.Failed "Dataframe has less than 2 non-NaN rows."
      "Failed to generate forecast".
Proof.
  refine (proj1 (insufficient_history_is_error_payload
                   (prophet := Fixture.drift_prophet) Fixture.iso_to_datetime
                   {| ForecastHandler.rq_business_id := "biz-1";
                      ForecastHandler.income_history :=
                        [Fixture.sample "sale" 100 "2024-01-01"];
                      ForecastHandler.expense_history := [];
                      ForecastHandler.rq_days := 30 |}
                   _ (ValueError "Dataframe has less than 2 non-NaN rows.")
                   _ eq_refl eq_refl)).
  discriminate.
Defined.

(** ** The insight detector *)

Module InsightsFacts.

Import Numeric Insights.

(** *** The order of the keys *)










(** *** The loop over the categories *)

Lemma anomalies_nonzero_total (total : float) (items : list (string * float)) :
  (total =? 0)%float = false ->
  anomalies total items = Ok (map (anomaly_of total) (filter (exceeds total) items)).
Proof.
  intros Hnz. induction items as [| [cat amt] rest IH]; simpl; [reflexivity |].
  unfold exceeds at 1. simpl snd.
  destruct (total * 0.3 <? amt)%float.
  - unfold float_div. rewrite Hnz. simpl. rewrite IH. reflexivity.
  - exact IH.
Qed.

Lemma anomalies_none_exceeds (total : float) (items : list (string * float)) :
  filter (exceeds total) items = [] -> anomalies total items = Ok [].
Proof.
  induction items as [| [cat amt] rest IH]; simpl; [reflexivity |].
  unfold exceeds at 1. simpl snd.
  destruct (total * 0.3 <? amt)%float; [discriminate | exact IH].
Qed.






End InsightsFacts.

(** *** The amounts of the spending map *)

Module GroupbyFacts.

Import Numeric Insights.

Lemma groupby_as_fold (rows : list Transaction) :
  groupby_description_sum rows = fold_left group_row rows [].
Proof. reflexivity. Qed.








End GroupbyFacts.

(** *** The handler *)

Module DetectFacts.

Import Numeric Insights.


Lemma detect_safe (expense_history : list Transaction) :
  let spending := groupby_description_sum expense_history in
  let total := sum (map snd spending) in
  (total =? 0)%float = false \/ filter (exceeds total) spending = [] ->
  detect expense_history
  = Ok (match filter (exceeds total) spending with
        | [] => [info]
        | _ :: _ => map (anomaly_of total) (filter (exceeds total) spending)
        end).
Proof.
  intros spending total Hsafe. unfold detect. fold spending. fold total.
  destruct (filter (exceeds total) spending) as [| hit hits] eqn:Hhits.
  - rewrite (InsightsFacts.anomalies_none_exceeds _ _ Hhits). reflexivity.
  - destruct Hsafe as [Hnz | Hnil]; [| discriminate].
    rewrite (InsightsFacts.anomalies_nonzero_total _ _ Hnz), Hhits. reflexivity.
Qed.


Lemma predict_insights_nonempty (expense_history : list Transaction) :
  expense_history <> [] ->
  predict_insights expense_history
  = match detect expense_history with
    | Ok insights => {| ir_error := None; ir_insights := insights |}
    | Raise e => {| ir_error := Some (str_of_exn e); ir_insights := [] |}
    end.
Proof.
  destruct expense_history; [congruence | reflexivity].
Qed.


End DetectFacts.




(** * Further properties of the handlers *)

(** ** The categoriser *)

Module CategorizerMore.

Import Categorizer.
Local Open Scope string_scope.

Lemma any_in_app (ws1 ws2 : list string) (text : string) :
  any_in (ws1 ++ ws2) text = any_in ws1 text || any_in ws2 text.
Proof. unfold any_in. apply existsb_app. Qed.

Lemma any_in_false_iff (ws : list string) (text : string) :
  any_in ws text = false <-> forall w, In w ws -> contains w text = false.
Proof.
  unfold any_in. split.
  - intros H w Hin. destruct (contains w text) eqn:Hc; [| reflexivity].
    rewrite <- H. symmetry. apply existsb_exists. exists w. split; assumption.
  - intros H. destruct (existsb (fun w => contains w text) ws) eqn:He; [| reflexivity].
    apply existsb_exists in He as [w [Hin Hc]]. rewrite (H w Hin) in Hc. discriminate.
Qed.

Lemma heuristic_other_iff (text : string) :
  heuristic_category text = "other" <-> any_in all_keywords text = false.
Proof.
  unfold all_keywords, keyword_rules. cbn [flat_map snd].
  rewrite !any_in_app. unfold heuristic_category.
  destruct (any_in ["rent"; "lease"; "office"] text);
  destruct (any_in ["salary"; "wage"; "pay"; "staff"] text);
  destruct (any_in ["stock"; "inventory"; "buy"; "purchase"] text);
  destruct (any_in ["uber"; "fuel"; "transport"; "taxi"] text);
  destruct (any_in ["electric"; "water"; "bill"; "power"] text);
  destruct (any_in ["ad"; "marketing"; "facebook"; "google"; "promo"] text);
  simpl; split; intros H; try discriminate; reflexivity.
Qed.

Lemma row_max_spec (x : Q) (xs : list Q) :
  exists c, row_max (x :: xs) = Ok c /\ In c (x :: xs) /\
            forall y, In y (x :: xs) -> (y <= c)%Q.
Proof.
  unfold row_max. eexists. split; [reflexivity |].
  revert x. induction xs as [| a xs IH]; intros x; simpl.
  - split; [left; reflexivity |]. intros y [<- | []]. apply Qle_refl.
  - destruct (IH (if Qle_bool x a then a else x)) as [Hin Hmax]. split.
    + destruct Hin as [H | H]; [| right; right; exact H].
      rewrite <- H. destruct (Qle_bool x a); [right; left | left]; reflexivity.
    + intros y Hy.
      assert (x <= (if Qle_bool x a then a else x) /\
              a <= (if Qle_bool x a then a else x))%Q as [Hx Ha].
      { destruct (Qle_bool x a) eqn:Hle.
        - apply Qle_bool_iff in Hle. split; [exact Hle | apply Qle_refl].
        - split; [apply Qle_refl |].
          destruct (Qlt_le_dec x a) as [Hlt | Hge]; [| exact Hge].
          apply Qlt_le_weak in Hlt. apply Qle_bool_iff in Hlt. congruence. }
      specialize (Hmax _ (or_introl eq_refl)).
      destruct Hy as [<- | [<- | Hy]].
      * eapply Qle_trans; eassumption.
      * eapply Qle_trans; eassumption.
      * apply IH. right. exact Hy.
Qed.

Lemma index_ok {A : Type} (l : list A) (i : nat) (a : A) :
  nth_error l i = Some a -> index l i = Ok a.
Proof. unfold index. intros ->. reflexivity. Qed.

Lemma index_short {A : Type} (l : list A) (i : nat) :
  (List.length l <= i)%nat -> index l i = Raise (IndexError "index out of range").
Proof.
  intros H. unfold index. rewrite (proj2 (nth_error_None l i) H). reflexivity.
Qed.

(** The loop returns one result per transaction when both lists reach
    far enough. *)
Lemma model_loop_ok (predictions : list string) (confidences : list Q)
    (txs : list Transaction) (i : nat) :
  (i + List.length txs <= List.length predictions)%nat ->
  (i + List.length txs <= List.length confidences)%nat ->
  exists results,
    model_loop predictions confidences i txs = Ok results /\
    List.length results = List.length txs /\
    forall j tx, nth_error txs j = Some tx ->
      exists p c, nth_error predictions (i + j) = Some p /\
                  nth_error confidences (i + j) = Some c /\
                  nth_error results j = Some (model_prediction tx p c).
Proof.
  revert i. induction txs as [| tx txs IH]; intros i Hp Hc; simpl in *.
  - exists []. split; [reflexivity |]. split; [reflexivity |].
    intros [| j] tx H; discriminate.
  - destruct (nth_error predictions i) as [p |] eqn:Hpi;
      [| apply nth_error_None in Hpi; lia].
    destruct (nth_error confidences i) as [c |] eqn:Hci;
      [| apply nth_error_None in Hci; lia].
    destruct (IH (S i) ltac:(lia) ltac:(lia)) as [rest [Hrest [Hlen Hnth]]].
    rewrite (index_ok _ _ _ Hpi), (index_ok _ _ _ Hci). simpl.
    rewrite Hrest. simpl. eexists. split; [reflexivity |].
    split; [simpl; rewrite Hlen; reflexivity |].
    intros [| j] tx' H; simpl in H.
    + injection H as <-. exists p, c. rewrite Nat.add_0_r. repeat split; assumption.
    + destruct (Hnth j tx' H) as [p' [c' [H1 [H2 H3]]]].
      exists p', c'. rewrite <- Nat.add_succ_comm. repeat split; assumption.
Qed.

(** It raises when either list ends before the transactions do. *)
Lemma model_loop_short (predictions : list string) (confidences : list Q)
    (txs : list Transaction) (i : nat) :
  (i <= List.length predictions)%nat -> (i <= List.length confidences)%nat ->
  (List.length predictions < i + List.length txs)%nat \/
  (List.length confidences < i + List.length txs)%nat ->
  model_loop predictions confidences i txs
  = Raise (IndexError "index out of range").
Proof.
  revert i. induction txs as [| tx txs IH]; intros i Hip Hic H; simpl in *; [lia |].
  destruct (Nat.le_gt_cases (List.length predictions) i) as [Hp | Hp].
  - rewrite (index_short _ _ Hp). reflexivity.
  - destruct (nth_error predictions i) as [p |] eqn:Hpi;
      [| apply nth_error_None in Hpi; lia].
    rewrite (index_ok _ _ _ Hpi). simpl.
    destruct (Nat.le_gt_cases (List.length confidences) i) as [Hc | Hc].
    + rewrite (index_short _ _ Hc). reflexivity.
    + destruct (nth_error confidences i) as [c |] eqn:Hci;
        [| apply nth_error_None in Hci; lia].
      rewrite (index_ok _ _ _ Hci). simpl.
      rewrite IH by lia. reflexivity.
Qed.

Lemma for_each_row_max (probs : list (list Q)) :
  Forall (fun row => row <> []) probs ->
  exists cs, for_each row_max probs = Ok cs /\
             List.length cs = List.length probs /\
             forall j row, nth_error probs j = Some row ->
               exists c, nth_error cs j = Some c /\ In c row /\
                         forall y, In y row -> (y <= c)%Q.
Proof.
  induction 1 as [| row probs Hrow _ [cs [Hcs [Hlen Hnth]]]].
  - exists []. split; [reflexivity |]. split; [reflexivity |].
    intros [| j] row H; discriminate.
  - destruct row as [| x xs]; [congruence |].
    destruct (row_max_spec x xs) as [c [Hc [Hin Hmax]]].
    exists (c :: cs). cbn [for_each]. rewrite Hc. simpl. rewrite Hcs. simpl.
    split; [reflexivity |]. split; [rewrite Hlen; reflexivity |].
    intros [| j] row H; simpl in H.
    + injection H as <-. exists c. repeat split; assumption.
    + apply Hnth. exact H.
Qed.

Lemma for_each_row_max_empty (probs : list (list Q)) :
  In [] probs -> exists e, for_each row_max probs = Raise e.
Proof.
  induction probs as [| row probs IH]; [intros [] |].
  intros [-> | Hin].
  - eexists. reflexivity.
  - destruct row as [| x xs]; [eexists; reflexivity |].
    destruct (IH Hin) as [e He]. exists e. cbn [for_each].
    destruct (row_max_spec x xs) as [c [Hc _]]. rewrite Hc. simpl.
    rewrite He. reflexivity.
Qed.

End CategorizerMore.

(** X1. The heuristic gives one of seven labels, and gives "other"
    exactly for the texts in which no keyword of the table occurs. *)
Theorem heuristic_labels_and_default (text : string) :
  In (Categorizer.heuristic_category text) Categorizer.heuristic_labels
  /\ (Categorizer.heuristic_category text = "other"%string <->
      forall w, In w Categorizer.all_keywords -> contains w text = false).
Proof.
  split.
  - unfold Categorizer.heuristic_category, Categorizer.heuristic_labels.
    repeat match goal with
           | |- context [any_in ?ws text] => destruct (any_in ws text)
           end; simpl; tauto.
  - rewrite CategorizerMore.heuristic_other_iff.
    apply CategorizerMore.any_in_false_iff.
Qed.

(** X2. With a classifier loaded that returns one label and one
    non-empty row of probabilities per transaction, the handler returns
    one result per transaction, in order, with the transaction's
    description, the classifier's label and, as confidence, the largest
    probability of the row. *)
Theorem model_backed_categorization (m : Classifier)
    (transactions : list Transaction) (labels : list string)
    (probs : list (list Q)) :
  clf_predict m (map description transactions) = Ok labels ->
  clf_predict_proba m (map description transactions) = Ok probs ->
  List.length labels = List.length transactions ->
  List.length probs = List.length transactions ->
  Forall (fun row => row <> []) probs ->
  exists results,
    Categorizer.predict_category (Some m) transactions = Ok results
    /\ List.length results = List.length transactions
    /\ forall j tx, nth_error transactions j = Some tx ->
         exists label row c,
           nth_error labels j = Some label /\
           nth_error probs j = Some row /\
           In c row /\ (forall y, In y row -> (y <= c)%Q) /\
           nth_error results j
           = Some {| cp_description := description tx;
                     suggested_category := label;
                     confidence := c |}.
Proof.
  intros Hlabels Hprobs Hl Hp Hrows.
  destruct (CategorizerMore.for_each_row_max probs Hrows) as [cs [Hcs [Hclen Hcnth]]].
  destruct (CategorizerMore.model_loop_ok labels cs transactions 0) as
    [results [Hres [Hrlen Hrnth]]]; [simpl; lia | simpl; lia |].
  exists results. split; [| split; [exact Hrlen |]].
  - unfold Categorizer.predict_category, Categorizer.confidences_of.
    rewrite Hlabels. simpl. rewrite Hprobs. simpl. rewrite Hcs. exact Hres.
  - intros j tx Hj.
    destruct (Hrnth j tx Hj) as [label [c [H1 [H2 H3]]]]. simpl in H1, H2.
    destruct (nth_error probs j) as [row |] eqn:Hrow.
    + destruct (Hcnth j row Hrow) as [c' [Hc' [Hin Hmax]]].
      rewrite H2 in Hc'. injection Hc' as <-.
      exists label, row, c. repeat split; assumption.
    + apply nth_error_None in Hrow.
      assert (j < List.length transactions)%nat
        by (apply nth_error_Some; congruence). lia.
Qed.

Lemma model_backed_categorization_witness :
  exists results,
    Categorizer.predict_category
      (Some {| clf_predict := fun ds => Ok (map (fun _ => "stock"%string) ds);
               clf_predict_proba :=
                 fun ds => Ok (map (fun _ => [1 # 10; 7 # 10; 2 # 10]) ds) |})
      [Fixture.sample "Restocking shelves" 40 "2024-01-01";
       Fixture.undescribed 5 "2024-01-02"]
    = Ok results /\ List.length results = 2%nat.
Proof.
  destruct (model_backed_categorization
              {| clf_predict := fun ds => Ok (map (fun _ => "stock"%string) ds);
                 clf_predict_proba :=
                   fun ds => Ok (map (fun _ => [1 # 10; 7 # 10; 2 # 10]) ds) |}
              [Fixture.sample "Restocking shelves" 40 "2024-01-01";
               Fixture.undescribed 5 "2024-01-02"]
              _ _ eq_refl eq_refl eq_refl eq_refl
              ltac:(repeat constructor; discriminate))
    as [results [Hres [Hlen _]]].
  exists results. split; [exact Hres | exact Hlen].
Defined.

(** X3. When the classifier's probabilities cannot be had (the call
    raises, or a row is empty) every confidence is 0.8, and the handler
    still returns one result per transaction with the classifier's
    labels. *)
Theorem model_backed_default_confidence (m : Classifier)
    (transactions : list Transaction) (labels : list string) :
  clf_predict m (map description transactions) = Ok labels ->
  List.length labels = List.length transactions ->
  (exists e, clf_predict_proba m (map description transactions) = Raise e) \/
  (exists probs, clf_predict_proba m (map description transactions) = Ok probs /\
                 In [] probs) ->
  exists results,
    Categorizer.predict_category (Some m) transactions = Ok results
    /\ List.length results = List.length transactions
    /\ forall j tx, nth_error transactions j = Some tx ->
         exists label,
           nth_error labels j = Some label /\
           nth_error results j
           = Some {| cp_description := description tx;
                     suggested_category := label;
                     confidence := 8 # 10 |}.
Proof.
  intros Hlabels Hl Hproba.
  assert (Categorizer.confidences_of m (map description transactions)
            (List.length labels) = repeat (8 # 10) (List.length labels)) as Hconf.
  { unfold Categorizer.confidences_of.
    destruct Hproba as [[e He] | [probs [Hp Hin]]].
    - rewrite He. reflexivity.
    - rewrite Hp. simpl.
      destruct (CategorizerMore.for_each_row_max_empty probs Hin) as [e ->].
      reflexivity. }
  destruct (CategorizerMore.model_loop_ok labels
              (repeat (8 # 10) (List.length labels)) transactions 0) as
    [results [Hres [Hrlen Hrnth]]];
    [simpl; lia | simpl; rewrite repeat_length; lia |].
  exists results. split; [| split; [exact Hrlen |]].
  - unfold Categorizer.predict_category. rewrite Hlabels. simpl.
    rewrite Hconf. exact Hres.
  - intros j tx Hj.
    destruct (Hrnth j tx Hj) as [label [c [H1 [H2 H3]]]]. simpl in H1, H2.
    exists label. split; [exact H1 |].
    apply nth_error_In, repeat_spec in H2. subst c. exact H3.
Qed.

Lemma model_backed_default_confidence_witness :
  exists results,
    Categorizer.predict_category
      (Some {| clf_predict := fun ds => Ok (map (fun _ => "rent"%string) ds);
               clf_predict_proba :=
                 fun _ => Raise (AttributeError "predict_proba is not available") |})
      [Fixture.sample "Shop lease" 300 "2024-01-01"]
    = Ok results
    /\ map confidence results = [8 # 10].
Proof.
  destruct (model_backed_default_confidence
              {| clf_predict := fun ds => Ok (map (fun _ => "rent"%string) ds);
                 clf_predict_proba :=
                   fun _ => Raise (AttributeError "predict_proba is not available") |}
              [Fixture.sample "Shop lease" 300 "2024-01-01"]
              _ eq_refl eq_refl
              (or_introl (ex_intro _ _ eq_refl)))
    as [results [Hres _]].
  exists results. split; [exact Hres |].
  vm_compute in Hres. injection Hres as <-. reflexivity.
Defined.

(** X4. The model-backed branch recovers from nothing else: an exception
    of the classifier's [predict] leaves the handler as it is, and a
    classifier that returns fewer labels, or fewer rows of
    probabilities, than there are transactions makes the loop raise
    [IndexError]. *)
Theorem model_backed_failures (m : Classifier) (transactions : list Transaction) :
  (forall e, clf_predict m (map description transactions) = Raise e ->
     Categorizer.predict_category (Some m) transactions = Raise e)
  /\ (forall labels,
        clf_predict m (map description transactions) = Ok labels ->
        (List.length labels < List.length transactions)%nat ->
        Categorizer.predict_category (Some m) transactions
        = Raise (IndexError "index out of range"))
  /\ (forall labels probs,
        clf_predict m (map description transactions) = Ok labels ->
        clf_predict_proba m (map description transactions) = Ok probs ->
        Forall (fun row => row <> []) probs ->
        (List.length probs < List.length transactions)%nat ->
        Categorizer.predict_category (Some m) transactions
        = Raise (IndexError "index out of range")).
Proof.
  split; [| split].
  - intros e He. unfold Categorizer.predict_category. rewrite He. reflexivity.
  - intros labels Hlabels Hshort.
    unfold Categorizer.predict_category. rewrite Hlabels. simpl.
    apply CategorizerMore.model_loop_short; simpl; lia.
  - intros labels probs Hlabels Hprobs Hrows Hshort.
    destruct (CategorizerMore.for_each_row_max probs Hrows) as [cs [Hcs [Hclen _]]].
    unfold Categorizer.predict_category, Categorizer.confidences_of.
    rewrite Hlabels. simpl. rewrite Hprobs. simpl. rewrite Hcs.
    apply CategorizerMore.model_loop_short; simpl; lia.
Qed.

(** ** The forecaster *)

Module ForecasterMore.

Import Numeric Dates Forecaster.

Lemma timedelta_days_mono (a b : Z) :
  (a <= b)%Z -> (timedelta_days a <= timedelta_days b)%Z.
Proof.
  intros H. unfold timedelta_days, ns_per_day. apply Z.div_le_mono; lia.
Qed.

End ForecasterMore.

(** X5. The forecaster catches nothing: an exception of [fit], of
    [make_future_dataframe] or of [predict] leaves it as it is, and an
    output with no row at index [len(historical_data)], as when the
    horizon adds no row to one row per row of history, raises
    [IndexError] at the trend's first value. *)
Theorem forecast_failures {prophet : Forecaster.ProphetAPI}
    (historical_data : list Forecaster.HistoryRow) (days : Z) :
  (forall e,
     Forecaster.fit (Forecaster.prophet_config historical_data) historical_data
       = Raise e ->
     Forecaster.forecast historical_data days = Raise e)
  /\ (forall fitted e,
        Forecaster.fit (Forecaster.prophet_config historical_data) historical_data
          = Ok fitted ->
        Forecaster.make_future_dataframe fitted days = Raise e ->
        Forecaster.forecast historical_data days = Raise e)
  /\ (forall fitted future e,
        Forecaster.fit (Forecaster.prophet_config historical_data) historical_data
          = Ok fitted ->
        Forecaster.make_future_dataframe fitted days = Ok future ->
        Forecaster.predict fitted future = Raise e ->
        Forecaster.forecast historical_data days = Raise e)
  /\ (forall fitted future output,
        Forecaster.fit (Forecaster.prophet_config historical_data) historical_data
          = Ok fitted ->
        Forecaster.make_future_dataframe fitted days = Ok future ->
        Forecaster.predict fitted future = Ok output ->
        (List.length output <= List.length historical_data)%nat ->
        Forecaster.forecast historical_data days
        = Raise (IndexError "single positional indexer is out-of-bounds")).
Proof.
  unfold Forecaster.forecast. split; [| split; [| split]].
  - intros e ->. reflexivity.
  - intros fitted e -> H. simpl. rewrite H. reflexivity.
  - intros fitted future e -> H1 H2. simpl. rewrite H1. simpl. rewrite H2. reflexivity.
  - intros fitted future output -> H1 H2 Hlen. simpl. rewrite H1. simpl.
    rewrite H2. simpl.
    rewrite ForecasterFacts.iloc_past_end by (rewrite length_map; exact Hlen).
    reflexivity.
Qed.

(** X7. A horizon of zero or fewer days makes the fallback generator
    return its fixed trend and mode with no prediction at all, not an
    error. *)
Theorem fallback_without_horizon (start_date : Dates.datetime) (days : Z) :
  (days <= 0)%Z ->
  Forecaster._generate_fallback_forecast start_date days
  = Ok {| Forecaster.predictions := [];
          Forecaster.trend_percentage := 0%float;
          Forecaster.seasonality_mode := "fallback" |}.
Proof.
  intros H. unfold Forecaster._generate_fallback_forecast.
  rewrite FallbackFacts.range_1_to_nonpositive by exact H. reflexivity.
Qed.

Lemma fallback_without_horizon_witness :
  Forecaster._generate_fallback_forecast
    {| Dates.ordinal := 739924; Dates.microsecond_of_day := 0 |} (-7)
  = Ok {| Forecaster.predictions := [];
          Forecaster.trend_percentage := 0%float;
          Forecaster.seasonality_mode := "fallback" |}.
Proof.
  apply (fallback_without_horizon
           {| Dates.ordinal := 739924; Dates.microsecond_of_day := 0 |} (-7)).
  lia.
Defined.

(** X8. A horizon that reaches past the last day of the calendar makes
    the date arithmetic of the fallback generator raise [OverflowError]:
    the points built before that day are lost with it. *)
Theorem fallback_beyond_calendar (start_date : Dates.datetime) (days : Z) :
  (1 <= Dates.ordinal start_date <= Dates.MAXORDINAL)%Z ->
  (Dates.MAXORDINAL < Dates.ordinal start_date + days)%Z ->
  Forecaster._generate_fallback_forecast start_date days
  = Raise (OverflowError "date value out of range").
Proof.
  intros Hstart Hmax. unfold Forecaster._generate_fallback_forecast.
  destruct (FallbackFacts.range_1_to_split
              (Dates.MAXORDINAL - Dates.ordinal start_date) days ltac:(lia))
    as [after ->].
  erewrite FallbackFacts.for_each_first_raise; [reflexivity | |].
  - apply (for_each_map _ (Forecaster.fixed_point start_date)).
    apply Forall_forall. intros i Hi. apply FallbackFacts.range_1_to_In in Hi.
    rewrite FallbackFacts.fallback_point_in_range by lia. reflexivity.
  - apply FallbackFacts.fallback_point_past_calendar;
      unfold Dates.MAXORDINAL in *; lia.
Qed.

Lemma fallback_beyond_calendar_witness :
  Forecaster._generate_fallback_forecast
    {| Dates.ordinal := 739924; Dates.microsecond_of_day := 0 |} 3000000
  = Raise (OverflowError "date value out of range").
Proof.
  apply (fallback_beyond_calendar
           {| Dates.ordinal := 739924; Dates.microsecond_of_day := 0 |} 3000000).
  - unfold Dates.MAXORDINAL. simpl. lia.
  - unfold Dates.MAXORDINAL. simpl. lia.
Defined.

(** X9. Rows added to a history never switch yearly seasonality off: the
    span of the longer frame is at least the span of the shorter one. *)
Theorem yearly_seasonality_stays_on
    (historical_data more : list Forecaster.HistoryRow) :
  Forecaster.yearly_seasonality (Forecaster.prophet_config historical_data) = true ->
  (Forecaster.data_span_days historical_data
   <= Forecaster.data_span_days (historical_data ++ more))%Z
  /\ Forecaster.yearly_seasonality
       (Forecaster.prophet_config (historical_data ++ more)) = true.
Proof.
  intros Hyearly.
  assert (Forecaster.data_span_days historical_data
          <= Forecaster.data_span_days (historical_data ++ more))%Z as Hspan.
  { destruct historical_data as [| row rest]; [discriminate |].
    destruct (ForecasterFacts.data_span_days_extremes row rest)
      as [lo [hi [Hlo [Hhi [_ ->]]]]].
    change ((row :: rest) ++ more) with (row :: (rest ++ more)).
    destruct (ForecasterFacts.data_span_days_extremes row (rest ++ more))
      as [lo' [hi' [_ [_ [Hbounds ->]]]]].
    apply ForecasterMore.timedelta_days_mono.
    assert (forall d, In d (map Forecaster.ds (row :: rest)) ->
                      In d (map Forecaster.ds (row :: rest ++ more))) as Hincl.
    { intros d Hd. change (row :: rest ++ more) with ((row :: rest) ++ more).
      rewrite map_app. apply in_or_app. left. exact Hd. }
    pose proof (Hbounds lo (Hincl lo Hlo)).
    pose proof (Hbounds hi (Hincl hi Hhi)). lia. }
  split; [exact Hspan |].
  unfold Forecaster.prophet_config in *. simpl in *.
  apply Z.ltb_lt in Hyearly. apply Z.ltb_lt. lia.
Qed.

Lemma yearly_seasonality_stays_on_witness :
  Forecaster.yearly_seasonality
    (Forecaster.prophet_config
       ([Fixture.row_at 19358 0 100; Fixture.row_at 19724 0 150]
        ++ [Fixture.row_at 19500 0 70])) = true.
Proof.
  apply (yearly_seasonality_stays_on
           [Fixture.row_at 19358 0 100; Fixture.row_at 19724 0 150]
           [Fixture.row_at 19500 0 70]).
  reflexivity.
Defined.

(** ** The forecast handler, continued *)

Module HandlerMore.

Import Forecaster ForecastHandler.

Lemma for_each_all_ok {A B : Type} (f : A -> result B) (l : list A) :
  Forall (fun a => is_ok (f a) = true) l -> exists bs, for_each f l = Ok bs.
Proof.
  induction 1 as [| a l Ha _ [bs Hbs]]; simpl.
  - exists []. reflexivity.
  - destruct (f a) as [b |]; [| discriminate]. simpl. rewrite Hbs. simpl.
    eexists. reflexivity.
Qed.

Lemma to_history_row_ok (to_datetime : string -> result Z) (t : Transaction) :
  is_ok (to_datetime (date t)) = true ->
  is_ok (to_history_row to_datetime t) = true.
Proof.
  unfold to_history_row. destruct (to_datetime (date t)); [reflexivity | discriminate].
Qed.

Lemma stream_forecast_unparsable {prophet : ProphetAPI}
    (to_datetime : string -> result Z)
    (before : list Transaction) (t : Transaction) (after : list Transaction)
    (days : Z) (e : exn) :
  Forall (fun tx => is_ok (to_datetime (date tx)) = true) before ->
  to_datetime (date t) = Raise e ->
  stream_forecast to_datetime (before ++ t :: after) days = Raise e.
Proof.
  intros Hbefore Ht.
  assert (exists rows, for_each (to_history_row to_datetime) before = Ok rows)
    as [rows Hrows].
  { apply for_each_all_ok. eapply Forall_impl; [| exact Hbefore].
    intros tx. apply to_history_row_ok. }
  assert (for_each (to_history_row to_datetime) (before ++ t :: after) = Raise e)
    as Hraise.
  { eapply FallbackFacts.for_each_first_raise; [exact Hrows |].
    unfold to_history_row. rewrite Ht. reflexivity. }
  unfold stream_forecast.
  destruct (before ++ t :: after) eqn:Heq.
  - destruct before; discriminate.
  - rewrite Hraise. reflexivity.
Qed.

End HandlerMore.

(** X10. A date that the parser refuses makes the handler answer with the
    error payload carrying the parser's text, whatever the forecaster
    would have done: in the income history, or in the expense history
    after an income stream that returned. *)
Theorem unparsable_date_is_error_payload {prophet : Forecaster.ProphetAPI}
    (to_datetime : string -> result Z) (request : ForecastHandler.ForecastRequest)
    (before : list Transaction) (t : Transaction) (after : list Transaction)
    (e : exn) :
  Forall (fun tx => is_ok (to_datetime (date tx)) = true) before ->
  to_datetime (date t) = Raise e ->
  (ForecastHandler.income_history request = before ++ t :: after ->
   ForecastHandler.predict_forecast to_datetime request
   = ForecastHandler.Failed (str_of_exn e) "Failed to generate forecast")
  /\ (ForecastHandler.expense_history request = before ++ t :: after ->
      is_ok (ForecastHandler.stream_forecast to_datetime
               (ForecastHandler.income_history request)
               (ForecastHandler.rq_days request)) = true ->
      ForecastHandler.predict_forecast to_datetime request
      = ForecastHandler.Failed (str_of_exn e) "Failed to generate forecast").
Proof.
  intros Hbefore Ht. split.
  - intros Hincome. apply HandlerFacts.predict_forecast_income_raises.
    rewrite Hincome. apply HandlerMore.stream_forecast_unparsable; assumption.
  - intros Hexpense Hok.
    destruct (ForecastHandler.stream_forecast to_datetime
                (ForecastHandler.income_history request)
                (ForecastHandler.rq_days request)) as [income_res |] eqn:Hi;
      [| discriminate].
    apply (HandlerFacts.predict_forecast_expense_raises _ _ income_res);
      [exact Hi |].
    rewrite Hexpense. apply HandlerMore.stream_forecast_unparsable; assumption.
Qed.

Lemma unparsable_date_is_error_payload_witness :
  ForecastHandler.predict_forecast (prophet := Fixture.drift_prophet)
    Fixture.iso_to_datetime
    {| ForecastHandler.rq_business_id := "biz-1";
       ForecastHandler.income_history :=
         [Fixture.sample "sale" 100 "2024-01-01";
          Fixture.sample "sale" 120 "next week";
          Fixture.sample "sale" 150 "2024-01-03"];
       ForecastHandler.expense_history := [];
       ForecastHandler.rq_days := 7 |}
  = ForecastHandler.Failed "Unknown datetime string format"
      "Failed to generate forecast".
Proof.
  refine (proj1 (unparsable_date_is_error_payload
                   (prophet := Fixture.drift_prophet) Fixture.iso_to_datetime
                   {| ForecastHandler.rq_business_id := "biz-1";
                      ForecastHandler.income_history :=
                        [Fixture.sample "sale" 100 "2024-01-01";
                         Fixture.sample "sale" 120 "next week";
                         Fixture.sample "sale" 150 "2024-01-03"];
                      ForecastHandler.expense_history := [];
                      ForecastHandler.rq_days := 7 |}
                   [Fixture.sample "sale" 100 "2024-01-01"]
                   (Fixture.sample "sale" 120 "next week")
                   [Fixture.sample "sale" 150 "2024-01-03"]
                   (ValueError "Unknown datetime string format") _ _) eq_refl).
  - repeat constructor.
  - reflexivity.
Defined.

(** X11. A forecast of the income stream is thrown away when the expense
    stream fails: the response is the error payload with the expense
    stream's exception, and holds nothing of the income forecast. *)
Theorem expense_failure_discards_income {prophet : Forecaster.ProphetAPI}
    (to_datetime : string -> result Z) (request : ForecastHandler.ForecastRequest)
    (income_res : Forecaster.ForecastResult)
    (df : list Forecaster.HistoryRow) (e : exn) :
  ForecastHandler.stream_forecast to_datetime
    (ForecastHandler.income_history request) (ForecastHandler.rq_days request)
    = Ok income_res ->
  ForecastHandler.expense_history request <> [] ->
  for_each (ForecastHandler.to_history_row to_datetime)
    (ForecastHandler.expense_history request) = Ok df ->
  Forecaster.fit (Forecaster.prophet_config df) df = Raise e ->
  ForecastHandler.predict_forecast to_datetime request
  = ForecastHandler.Failed (str_of_exn e) "Failed to generate forecast".
Proof.
  intros Hi Hne Hdf Hfit.
  apply (HandlerFacts.predict_forecast_expense_raises _ _ income_res); [exact Hi |].
  apply (HandlerFacts.stream_forecast_fit_raises _ _ _ df); assumption.
Qed.

Lemma expense_failure_discards_income_witness :
  ForecastHandler.predict_forecast (prophet := Fixture.drift_prophet)
    Fixture.iso_to_datetime
    {| ForecastHandler.rq_business_id := "biz-1";
       ForecastHandler.income_history :=
         [Fixture.sample "sale" 100 "2024-01-01";
          Fixture.sample "sale" 150 "2024-01-03"];
       ForecastHandler.expense_history := [Fixture.sample "rent" 90 "2024-01-02"];
       ForecastHandler.rq_days := 7 |}
  = ForecastHandler.Failed "Dataframe has less than 2 non-NaN rows."
      "Failed to generate forecast".
Proof.
  refine (expense_failure_discards_income
            (prophet := Fixture.drift_prophet) Fixture.iso_to_datetime
            {| ForecastHandler.rq_business_id := "biz-1";
               ForecastHandler.income_history :=
                 [Fixture.sample "sale" 100 "2024-01-01";
                  Fixture.sample "sale" 150 "2024-01-03"];
               ForecastHandler.expense_history :=
                 [Fixture.sample "rent" 90 "2024-01-02"];
               ForecastHandler.rq_days := 7 |}
            _ _ (ValueError "Dataframe has less than 2 non-NaN rows.")
            eq_refl _ eq_refl eq_refl).
  discriminate.
Defined.

(** ** The insight detector, continued *)

Module InsightsMore.

Import Numeric Insights.




End InsightsMore.

Module DetectMore.

Import Numeric Insights.


Lemma groupby_undescribed_from (rows : list Transaction) (groups : list (string * float)) :
  fold_left group_row rows groups
  = fold_left group_row
      (filter (fun tx => match description tx with Some _ => true | None => false end)
         rows) groups.
Proof.
  revert groups. induction rows as [| tx rows IH]; intros groups; [reflexivity |].
  simpl. destruct (description tx) eqn:Hd; simpl.
  - apply IH.
  - unfold group_row at 2. rewrite Hd. apply IH.
Qed.



End DetectMore.





(** X16. Rows without a description do not count: the spending map of a
    history is the map of its described rows, and a non-empty history
    with no described row at all is answered with the one "info"
    insight. *)
Theorem undescribed_rows_do_not_count (expense_history : list Transaction) :
  Insights.groupby_description_sum expense_history
  = Insights.groupby_description_sum
      (filter (fun tx => match description tx with Some _ => true | None => false end)
         expense_history)
  /\ (expense_history <> [] ->
      Forall (fun tx => description tx = None) expense_history ->
      Insights.predict_insights expense_history
      = {| Insights.ir_error := None; Insights.ir_insights := [Insights.info] |}).
Proof.
  split.
  - rewrite !GroupbyFacts.groupby_as_fold.
    apply DetectMore.groupby_undescribed_from.
  - intros Hne Hall.
    assert (Insights.groupby_description_sum expense_history = []) as Hspend.
    { rewrite GroupbyFacts.groupby_as_fold.
      clear Hne. induction Hall as [| tx rest Htx _ IH]; [reflexivity |].
      simpl. unfold Insights.group_row at 2. rewrite Htx. exact IH. }
    rewrite (DetectFacts.predict_insights_nonempty _ Hne).
    rewrite (DetectFacts.detect_safe expense_history);
      [| right; rewrite Hspend; reflexivity].
    rewrite Hspend. reflexivity.
Qed.



